(** * Treasury yield-curve ingestion: a shallow embedding of [draft/_ust.py]

    The development follows the layout of the Python module: the schema
    constants, the XML-to-dict parsers, the local XML cache, the web
    request, the end-use functions on data frames and the merge performed by
    [update_dfs].  Library calls whose code is not part of the repository
    (BeautifulSoup, [float], [datetime.strptime], the CSV writer and reader
    of pandas) are the fields of the class [Library]; the remote service,
    the clock and the files are the fields of [world].  Files are opened in
    text mode on a system whose line separator is the line feed and whose
    encoding has every character that is written. *)

From Stdlib Require Import ZArith List String Ascii Bool Lia.
From Stdlib Require Import DecimalString DecimalZ.
From stdpp Require Import base option list gmap strings.

Local Open Scope string_scope.
Local Open Scope list_scope.

(** ** Python exceptions and results *)

Inductive exn : Type :=
| ValueError
| TypeError
| AttributeError
| KeyError
| FileNotFoundError.

Inductive result (A : Type) : Type :=
| Ok (a : A)
| Raise (e : exn).

Arguments Ok {A} a.
Arguments Raise {A} e.

Definition rbind {A B : Type} (r : result A) (k : A -> result B) : result B :=
  match r with
  | Ok a => k a
  | Raise e => Raise e
  end.

Declare Scope result_scope.
Delimit Scope result_scope with result.
Notation "'do' x <- r ; k" := (rbind r (fun x => k))
  (at level 10, x name, r at level 100, k at level 200) : result_scope.

(** A generator run to exhaustion: the items it yielded, in order, and the
    exception that ended it, if any. *)
Definition gen (A : Type) : Type := (list A * option exn)%type.

Fixpoint yield_each {A B : Type} (f : A -> result B) (l : list A) : gen B :=
  match l with
  | [] => ([], None)
  | a :: l' =>
      match f a with
      | Raise e => ([], Some e)
      | Ok b => let '(ys, e) := yield_each f l' in (b :: ys, e)
      end
  end.

(** ** Schema constants *)

Definition BC_KEYS : list string :=
  [ "BC_1MONTH"; "BC_3MONTH"; "BC_6MONTH"; "BC_1YEAR"; "BC_2YEAR";
    "BC_3YEAR"; "BC_5YEAR"; "BC_7YEAR"; "BC_10YEAR"; "BC_20YEAR";
    "BC_30YEAR"; "BC_30YEARDISPLAY" ].

Definition DF_COLUMNS : list string := "date" :: BC_KEYS.

(** ** Calendar days *)

Record date : Type := mkdate { year : Z; month : Z; day : Z }.

Global Instance date_eq_dec : EqDecision date.
Proof. solve_decision. Defined.

(** ** The parsed document tree (bs4) *)

#[warnings="-register-all"]
Inductive node : Type :=
| Tag (name : string) (contents : list node)
| NavigableString (s : string).

Definition tag_name (n : node) : string :=
  match n with
  | Tag nm _ => nm
  | NavigableString _ => ""
  end.

(** [.text]: all strings below the node, concatenated in document order. *)
Fixpoint text (n : node) : string :=
  match n with
  | NavigableString s => s
  | Tag _ cs => fold_right (fun c acc => text c +:+ acc) "" cs
  end.

(** All tags strictly below a node, in document order. *)
Fixpoint descendants (n : node) : list node :=
  match n with
  | NavigableString _ => []
  | Tag _ cs =>
      flat_map (fun c => match c with
                         | Tag _ _ => c :: descendants c
                         | NavigableString _ => []
                         end) cs
  end.

Definition find_all (nm : string) (n : node) : list node :=
  filter (fun t => tag_name t = nm) (descendants n).

Definition find (nm : string) (n : node) : option node :=
  head (find_all nm n).

Definition findChildren (n : node) : list node := descendants n.

(** What an expression of the parsers may evaluate to before it reaches
    [get_date]: a [str], a tag, or [None]. *)
Inductive pyobj : Type :=
| PyStr (s : string)
| PyTag (t : node)
| PyNone.

Definition found (o : option node) : pyobj :=
  match o with
  | Some t => PyTag t
  | None => PyNone
  end.

(** [o.text] on the result of [find]: [None] has no attribute [text]. *)
Definition dot_text (o : option node) : result string :=
  match o with
  | Some t => Ok (text t)
  | None => Raise AttributeError
  end.

(** ** Library calls

    [number] is what [as_float] returns: the float, or the integer [0]. *)

Inductive number (F : Type) : Type :=
| PyFloat (x : F)
| PyInt (z : Z).

Arguments PyFloat {F} x.
Arguments PyInt {F} z.

Class Library : Type := {
  (** Python floats, and [float(s)] on a [str]; [None] is its [ValueError]. *)
  pyfloat : Type;
  py_float : string -> option pyfloat;
  (** [datetime.strptime(s, "%Y-%m-%dT%H:%M:%S")] followed by
      [strftime("%Y-%m-%d")]: the calendar day of the timestamp.  The ISO day
      string that the code passes on is represented by the day it denotes,
      and [pd.to_datetime] on it is the identity. *)
  strptime : string -> option date;
  (** [bs4.BeautifulSoup(xml_content, "xml")]: the document node. *)
  BeautifulSoup : string -> node;
  (** [DataFrame.to_csv]: the text written for a frame, given as its rows,
      each the index entry and the values (a value is a number or NaN). *)
  to_csv_text : list (date * list (option (number pyfloat))) -> string;
  (** [pd.read_csv(..., index_col=0, converters={0: pd.to_datetime})] on the
      text of a file: the rows it parses, or the exception it raises. *)
  read_csv_rows : string -> result (list (date * list (option (number pyfloat))))
}.

(** ** Parsing XML string to dict *)

Section Parsing.
Context `{Library}.

Definition get_date (string : pyobj) : result date :=
  match string with
  | PyStr s =>
      match strptime s with
      | Some d => Ok d
      | None => Raise ValueError
      end
  | PyTag _ | PyNone => Raise TypeError
  end.

Definition as_float (s : string) : number pyfloat :=
  match py_float s with
  | Some x => PyFloat x
  | None => PyInt 0
  end.

(** One dictionary per date: the "date" entry and the yield entries. *)
Record datapoint : Type := mkpoint {
  point_date : date;
  point_fields : gmap string (number pyfloat)
}.

(** [(key, as_float(datum.find(key).text)) for key in BC_KEYS] *)
Fixpoint cur_dict_items (datum : node) (keys : list string)
  : result (list (string * number pyfloat)) :=
  match keys with
  | [] => Ok []
  | key :: keys' =>
      (do s <- dot_text (find key datum);
       do rest <- cur_dict_items datum keys';
       Ok ((key, as_float s) :: rest))%result
  end.

Definition cur_dict (datum : node) : result datapoint :=
  (do items <- cur_dict_items datum BC_KEYS;
   do s <- dot_text (find "NEW_DATE" datum);
   do d <- get_date (PyStr s);
   Ok {| point_date := d; point_fields := list_to_map items |})%result.

Definition yield_datapoints_from_string (xml_content : string) : gen datapoint :=
  let soup := BeautifulSoup xml_content in
  let data := find_all "content" soup in
  yield_each cur_dict data.

(** The loop over [prop.findChildren()] of the alternative parser. *)
Fixpoint point_children (children : list node)
    (point : gmap string (number pyfloat))
  : result (gmap string (number pyfloat)) :=
  match children with
  | [] => Ok point
  | child :: rest =>
      if String.prefix "BC_" (tag_name child) then
        match py_float (text child) with
        | Some x => point_children rest (<[tag_name child := PyFloat x]> point)
        | None => Raise ValueError
        end
      else point_children rest point
  end.

Definition point_2 (prop : node) : result datapoint :=
  (do d <- get_date (found (find "NEW_DATE" prop));
   do fs <- point_children (findChildren prop) ∅;
   Ok {| point_date := d; point_fields := fs |})%result.

Definition yield_datapoints_from_string_2 (xml_content : string) : gen datapoint :=
  let soup := BeautifulSoup xml_content in
  let properties := find_all "properties" soup in
  yield_each point_2 properties.


(** The text of the first element named [key] in an entry. *)
Definition field_text (key : string) (datum : node) : string :=
  match find key datum with
  | Some t => text t
  | None => ""
  end.

End Parsing.

(** ** Order on calendar days *)

Definition date_compare (a b : date) : comparison :=
  match (year a ?= year b)%Z with
  | Eq => match (month a ?= month b)%Z with
          | Eq => (day a ?= day b)%Z
          | c => c
          end
  | c => c
  end.

Definition date_leb (a b : date) : bool :=
  match date_compare a b with
  | Gt => false
  | _ => true
  end.

Definition date_max (a b : date) : date := if date_leb a b then b else a.

(** [max(index)]; the builtin raises on an empty sequence. *)
Definition max_date (ds : list date) : result date :=
  match ds with
  | [] => Raise ValueError
  | d :: ds' => Ok (fold_left date_max ds' d)
  end.

(** The Python operator [in] on two [str]. *)
Fixpoint py_in (sub s : string) : bool :=
  String.prefix sub s
  || match s with
     | EmptyString => false
     | String _ s' => py_in sub s'
     end.

(** What a text-mode [read()] returns for the characters of a file: a
    carriage return, alone or followed by a line feed, becomes a line feed.
    A text-mode [write()] stores the characters as they are. *)
Definition CR : ascii := ascii_of_nat 13.
Definition LF : ascii := ascii_of_nat 10.

Fixpoint universal_newlines (s : string) : string :=
  match s with
  | EmptyString => EmptyString
  | String c s' =>
      if Ascii.eqb c CR then
        String LF
          match s' with
          | String c' s'' =>
              if Ascii.eqb c' LF then universal_newlines s''
              else universal_newlines s'
          | EmptyString => EmptyString
          end
      else String c (universal_newlines s')
  end.

(** [sub] occurs in [s]. *)
Definition contains (sub s : string) : Prop :=
  exists pre post, s = pre +:+ sub +:+ post.

(** ** Data frames

    A daily table is a list of rows under the schema columns [BC_KEYS], each
    row with its index entry (the date); a cell is a number or NaN. *)

Abbreviation cell := (option (number pyfloat)).

Section Rows.
Context `{Library}.

Record row : Type := mkrow {
  row_date : date;
  row_values : list cell
}.

End Rows.

Abbreviation table := (list row).

Section Frames.
Context `{Library}.

Definition index (df : table) : list date := map row_date df.

(** [pd.DataFrame(gen)]: consumes the generator. *)
Definition DataFrame (g : gen datapoint) : result (list datapoint) :=
  match g with
  | (points, None) => Ok points
  | (_, Some e) => Raise e
  end.

(** The frame built from dictionaries has a column for every key that
    occurs in one of them. *)
Definition has_column (points : list datapoint) (key : string) : bool :=
  existsb (fun p => bool_decide (is_Some (point_fields p !! key))) points.

Definition point_row (p : datapoint) : row :=
  {| row_date := point_date p;
     row_values := map (fun key => point_fields p !! key) BC_KEYS |}.

(** [df[DF_COLUMNS]] followed by [set_index("date")]: a [KeyError] when a
    requested column is not in the frame. *)
Definition select_columns (points : list datapoint) : result table :=
  match points with
  | [] => Raise KeyError
  | _ :: _ =>
      if forallb (has_column points) BC_KEYS
      then Ok (map point_row points)
      else Raise KeyError
  end.

(** [pd.concat(dfs)]: refuses an empty list of frames. *)
Definition pd_concat (dfs : list table) : result table :=
  match dfs with
  | [] => Raise ValueError
  | _ :: _ => Ok (concat dfs)
  end.

(** [drop_duplicates(subset="date", keep="last")] *)
Fixpoint drop_duplicates_last (rows : table) : table :=
  match rows with
  | [] => []
  | r :: rest =>
      if bool_decide (row_date r ∈ index rest)
      then drop_duplicates_last rest
      else r :: drop_duplicates_last rest
  end.

(** Lines 191-196 of [update_dfs]:
    [pd.concat([df0, df1]).reset_index().drop_duplicates(subset="date",
    keep="last").set_index("date")]. *)
Definition merge_dfs (df0 df1 : table) : table :=
  drop_duplicates_last (df0 ++ df1).

(** The rows of a table that carry a given date. *)
Definition rows_at (D : date) (df : table) : table :=
  filter (fun r => row_date r = D) df.

(** Non-decreasing date order: every row is no later than the rows
    after it. *)
Fixpoint sortedb (ds : list date) : bool :=
  match ds with
  | [] => true
  | d :: ds' => forallb (date_leb d) ds' && sortedb ds'
  end.

Definition sorted_by_date (df : table) : Prop := sortedb (index df) = true.

(** The text [to_csv] writes for a table, and the table [read_csv] parses
    from a text. *)
Definition csv_text (df : table) : string :=
  to_csv_text (map (fun r => (row_date r, row_values r)) df).

Definition csv_table (content : string) : result table :=
  (do rows <- read_csv_rows content;
   Ok (map (fun p => {| row_date := fst p; row_values := snd p |}) rows))%result.

End Frames.

(** ** The world: clock, remote service, cache directory, persisted table *)

Section World.
Context `{Library}.

Record world : Type := mkworld {
  today_year : Z;               (* [datetime.today().year] *)
  web : Z -> string;            (* the body served for a year *)
  requests : list Z;            (* the years requested over HTTP, oldest first *)
  xml_dir : bool;               (* directory "xml" exists *)
  xml_files : gmap Z string;    (* "xml/<year>.xml" *)
  csv : option string           (* the text of "ust.csv" *)
}.

(** A computation may change the world and then raise. *)
Definition M (A : Type) : Type := world -> result A * world.

Definition ret {A : Type} (a : A) : M A := fun w => (Ok a, w).
Definition raise {A : Type} (e : exn) : M A := fun w => (Raise e, w).
Definition lift {A : Type} (r : result A) : M A := fun w => (r, w).

Definition bind {A B : Type} (m : M A) (k : A -> M B) : M B :=
  fun w =>
    match m w with
    | (Ok a, w') => k a w'
    | (Raise e, w') => (Raise e, w')
    end.

End World.

Declare Scope world_scope.
Delimit Scope world_scope with world.
Notation "x <- m ;; k" := (bind m (fun x => k))
  (at level 100, m at next level, right associativity) : world_scope.
Notation "m ;;; k" := (bind m (fun _ => k))
  (at level 100, right associativity) : world_scope.

Section Pipeline.
Context `{Library}.
Local Open Scope world_scope.

(** *** Local XML file cache *)

(** The path of a year's file is identified with the year. *)
Definition filepath (year : Z) : M Z :=
  fun w =>
    (Ok year,
     {| today_year := today_year w; web := web w; requests := requests w;
        xml_dir := true; xml_files := xml_files w; csv := csv w |}).

Definition path_exists (path : Z) : M bool :=
  fun w => (Ok (bool_decide (is_Some (xml_files w !! path))), w).

Definition read_local_xml (year : Z) : M string :=
  path <- filepath year ;;
  fun w =>
    match xml_files w !! path with
    | Some content => (Ok (universal_newlines content), w)
    | None => (Raise FileNotFoundError, w)
    end.

Definition save_local_xml (year : Z) (content : string) : M unit :=
  path <- filepath year ;;
  fun w =>
    (Ok tt,
     {| today_year := today_year w; web := web w; requests := requests w;
        xml_dir := xml_dir w;
        xml_files := <[path := content]> (xml_files w); csv := csv w |}).

(** *** Web request *)

Definition get_web_xml (year : Z) : M string :=
  fun w =>
    (Ok (web w year),
     {| today_year := today_year w; web := web w;
        requests := requests w ++ [year];
        xml_dir := xml_dir w; xml_files := xml_files w; csv := csv w |}).

Definition get_xml_content_from_web (year : Z) : M string :=
  content <- get_web_xml year ;;
  if py_in "Error" content then raise ValueError else ret content.

(** *** End-use functions *)

Definition today : M Z := fun w => (Ok (today_year w), w).

(** [from_web or year == datetime.today().year
     or not os.path.exists(filepath(year))], evaluated left to right. *)
Definition must_fetch (year : Z) (from_web : bool) : M bool :=
  if from_web then ret true
  else
    t <- today ;;
    if (year =? t)%Z then ret true
    else
      path <- filepath year ;;
      e <- path_exists path ;;
      ret (negb e).

Definition get_datapoints (year : Z) (from_web : bool) : M (gen datapoint) :=
  c <- must_fetch year from_web ;;
  if c : bool then
    xml_content <- get_xml_content_from_web year ;;
    save_local_xml year xml_content ;;;
    ret (yield_datapoints_from_string xml_content)
  else
    xml_content <- read_local_xml year ;;
    ret (yield_datapoints_from_string xml_content).

(** The condition under which [get_datapoints] goes to the web. *)
Definition fetch_condition (year : Z) (from_web : bool) (w : world) : Prop :=
  from_web = true \/ year = today_year w \/ xml_files w !! year = None.

(** Same clock and service, and every cached file of a past year kept. *)
Definition cache_kept (w w' : world) : Prop :=
  today_year w' = today_year w
  /\ (forall y, web w' y = web w y)
  /\ (forall y c, y <> today_year w ->
        xml_files w !! y = Some c -> xml_files w' !! y = Some c).

(** Lines 152-155 of [get_df]: the frame built from the generator, its
    schema columns selected and the date made the index. *)
Definition frame_of (g : gen datapoint) : result table :=
  (do points <- DataFrame g; select_columns points)%result.

Definition get_df (year : Z) : M table :=
  g <- get_datapoints year false ;;
  lift (frame_of g).

(** [[get_df(year) for year in years]] *)
Fixpoint get_df_each (years : list Z) : M (list table) :=
  match years with
  | [] => ret []
  | y :: years' =>
      df <- get_df y ;;
      dfs <- get_df_each years' ;;
      ret (df :: dfs)
  end.

Definition get_dfs (years : list Z) : M table :=
  dfs <- get_df_each years ;;
  lift (pd_concat dfs).

(** [range(a, b)] *)
Definition range (a b : Z) : list Z := seqZ a (b - a).

(** [pd.read_csv(CSV_PATH, index_col=0, converters={0: pd.to_datetime})]:
    the table parsed from the text of the file, the reader's exception for
    a text it rejects, [FileNotFoundError] without a file. *)
Definition read_csv : M table :=
  fun w =>
    match csv w with
    | Some content => (csv_table content, w)
    | None => (Raise FileNotFoundError, w)
    end.

(** [df.to_csv(CSV_PATH)]: the file is replaced by the text of [df]. *)
Definition to_csv (df : table) : M unit :=
  fun w =>
    (Ok tt,
     {| today_year := today_year w; web := web w; requests := requests w;
        xml_dir := xml_dir w; xml_files := xml_files w;
        csv := Some (csv_text df) |}).

Definition update_dfs : M table :=
  df0 <- read_csv ;;
  last <- lift (max_date (index df0)) ;;
  t <- today ;;
  let years := range (year last) (t + 1) in
  df1 <- get_dfs years ;;
  let df := merge_dfs df0 df1 in
  to_csv df ;;;
  ret df.

Definition get_dfs_from_scratch : M table :=
  cur_year <- today ;;
  let YEARS := range 1990 (cur_year + 1) in
  dfs <- get_df_each YEARS ;;
  lift (pd_concat dfs).

End Pipeline.

(** ** A small instance of the library, and sample documents

    Floats are read from unsigned decimal integers, timestamps from the
    fixed-width form [YYYY-MM-DDThh:mm:ss], the sample documents are
    recognised by their text, and frames are written as comma-separated
    lines under a header. *)

Module Sample.

Definition digit (c : ascii) : option Z :=
  let n := Z.of_nat (nat_of_ascii c) in
  if (48 <=? n)%Z && (n <=? 57)%Z then Some (n - 48)%Z else None.

Fixpoint digits (acc : Z) (s : string) : option Z :=
  match s with
  | EmptyString => Some acc
  | String c s' =>
      match digit c with
      | Some d => digits (10 * acc + d)%Z s'
      | None => None
      end
  end.

Definition float (s : string) : option Z :=
  match s with
  | EmptyString => None
  | _ => digits 0 s
  end.

Definition timestamp (s : string) : option date :=
  if (String.length s =? 19)%nat
     && String.eqb (substring 4 1 s) "-" && String.eqb (substring 7 1 s) "-"
     && String.eqb (substring 10 1 s) "T"
  then
    match digits 0 (substring 0 4 s), digits 0 (substring 5 2 s),
          digits 0 (substring 8 2 s) with
    | Some y, Some m, Some d =>
        if (1 <=? m)%Z && (m <=? 12)%Z && (1 <=? d)%Z && (d <=? 31)%Z
        then Some (mkdate y m d) else None
    | _, _, _ => None
    end
  else None.

Fixpoint render (n : node) : string :=
  match n with
  | NavigableString s => s
  | Tag nm cs =>
      "<" +:+ nm +:+ ">"
      +:+ fold_right (fun c acc => render c +:+ acc) "" cs
      +:+ "</" +:+ nm +:+ ">"
  end.

Definition element (nm txt : string) : node :=
  Tag nm (match txt with EmptyString => [] | _ => [NavigableString txt] end).

(** One entry of the feed: the stamp and the texts of the yield fields
    named in [keys]. *)
Definition entry (stamp : string) (keys : list string) (vals : list string) : node :=
  Tag "entry"
    [Tag "content"
       [Tag "properties"
          (element "NEW_DATE" stamp :: zip_with element keys vals)]].

Definition document (entries : list node) : node :=
  Tag "[document]" [Tag "feed" entries].

Definition same (v : string) : list string := replicate 12 v.

(** Two trading days of 2021; the second has an empty 30-year field. *)
Definition doc_2021 : node :=
  document
    [ entry "2021-01-04T00:00:00" BC_KEYS (same "9");
      entry "2021-01-05T00:00:00" BC_KEYS
        ["8"; "8"; "8"; "8"; "8"; "8"; "8"; "8"; "8"; "8"; ""; "8"] ].

(** The same year listed latest day first. *)
Definition doc_2021_reversed : node :=
  document
    [ entry "2021-01-05T00:00:00" BC_KEYS (same "8");
      entry "2021-01-04T00:00:00" BC_KEYS (same "9") ].

(** An entry without its [BC_30YEARDISPLAY] element. *)
Definition doc_short_entry : node :=
  document [ entry "2021-01-04T00:00:00" (take 11 BC_KEYS) (same "9") ].

(** A feed with no entry. *)
Definition doc_no_entry : node := document [].

Definition documents : list node :=
  [doc_2021; doc_2021_reversed; doc_short_entry; doc_no_entry].

Definition soup (xml_content : string) : node :=
  match List.find (fun doc => String.eqb (render doc) xml_content) documents with
  | Some doc => doc
  | None => Tag "[document]" []
  end.

(** The CSV text of the sample frames: the header, then a line per row
    with the ISO day and the values; a float is written with a trailing
    ".0", an integer as its digits, NaN as the empty field. *)
Definition show (z : Z) : string := NilZero.string_of_int (Z.to_int z).

Definition pad2 (z : Z) : string :=
  if (z <? 10)%Z then "0" +:+ show z else show z.

Definition show_date (d : date) : string :=
  show (year d) +:+ "-" +:+ pad2 (month d) +:+ "-" +:+ pad2 (day d).

Definition show_cell (c : option (number Z)) : string :=
  match c with
  | None => ""
  | Some (PyFloat x) => show x +:+ ".0"
  | Some (PyInt z) => show z
  end.

Definition csv_line (r : date * list (option (number Z))) : string :=
  String.concat "," (show_date (fst r) :: map show_cell (snd r)).

Definition write_csv (rows : list (date * list (option (number Z)))) : string :=
  String.concat (String LF "") (String.concat "," DF_COLUMNS :: map csv_line rows)
  +:+ String LF "".

(** [s.split(sep)] *)
Fixpoint split_on (sep : ascii) (s : string) : list string :=
  match s with
  | EmptyString => [EmptyString]
  | String c s' =>
      if Ascii.eqb c sep then EmptyString :: split_on sep s'
      else match split_on sep s' with
           | x :: xs => String c x :: xs
           | [] => [String c EmptyString]
           end
  end.

Definition read_cell (s : string) : option (option (number Z)) :=
  match s with
  | EmptyString => Some None
  | _ =>
      let n := String.length s in
      if (2 <? n)%nat && String.eqb (substring (n - 2) 2 s) ".0"
      then option_map (fun x => Some (PyFloat x)) (float (substring 0 (n - 2) s))
      else option_map (fun z => Some (PyInt z)) (float s)
  end.

Definition read_date (s : string) : option date :=
  match split_on "-" s with
  | [y; m; d] =>
      match float y, float m, float d with
      | Some y, Some m, Some d => Some (mkdate y m d)
      | _, _, _ => None
      end
  | _ => None
  end.

Definition read_line (s : string) : option (date * list (option (number Z))) :=
  match split_on "," s with
  | d :: cells =>
      match read_date d, mapM read_cell cells with
      | Some d, Some cells => Some (d, cells)
      | _, _ => None
      end
  | [] => None
  end.

Definition read_csv_text (content : string)
  : result (list (date * list (option (number Z)))) :=
  match split_on LF content with
  | header :: lines =>
      if String.eqb header (String.concat "," DF_COLUMNS) then
        match mapM read_line (List.filter (fun l => negb (String.eqb l "")) lines) with
        | Some rows => Ok rows
        | None => Raise ValueError
        end
      else Raise ValueError
  | [] => Raise ValueError
  end.

Definition library : Library :=
  {| pyfloat := Z;
     py_float := float;
     strptime := timestamp;
     BeautifulSoup := soup;
     to_csv_text := write_csv;
     read_csv_rows := read_csv_text |}.

Definition values (v : Z) : list (option (number Z)) :=
  replicate 12 (Some (PyFloat v)).

(** A row with the same value in every column. *)
Definition flat_row (d : date) (v : Z) : @row library :=
  @mkrow library d (values v).

Definition jan (d : Z) : date := mkdate 2021 1 d.

(** The rows that [doc_2021] is parsed to. *)
Definition rows_2021 : list (@row library) :=
  [ flat_row (jan 4) 9;
    @mkrow library (jan 5)
      (replicate 10 (Some (PyFloat 8%Z)) ++ [Some (PyInt 0); Some (PyFloat 8%Z)]) ].

(** A world whose clock reads 2021, whose service answers 2021 with
    [body] and anything else with an error page, with an empty cache and
    the table [df0] written to the persisted file. *)
Definition world_2021 (body : string) (df0 : list (@row library)) : world :=
  {| today_year := 2021;
     web := fun y => if (y =? 2021)%Z then body else "Error: no data";
     requests := [];
     xml_dir := false;
     xml_files := ∅;
     csv := Some (@csv_text library df0) |}.

(** The persisted table holds an older version of 4 January. *)
Definition world_stale : world :=
  world_2021 (render doc_2021) [flat_row (jan 4) 1].

(** The same, with the service listing the latest day first. *)
Definition world_reversed : world :=
  world_2021 (render doc_2021_reversed) [flat_row (jan 4) 1].

(** The persisted table ends with 2020 and the stale 4 January. *)
Definition world_ordered : world :=
  world_2021 (render doc_2021)
    [flat_row (mkdate 2020 12 31) 1; flat_row (jan 4) 1].

End Sample.

(** ** Names of the remote and the local resources *)

(** ["{}".format(year)] on an integer: its decimal numeral, with a minus
    sign when negative. *)
Definition format_int (z : Z) : string := NilZero.string_of_int (Z.to_int z).

Definition get_url (year : Z) : string :=
  "https://www.treasury.gov/resource-center/data-chart-center/interest-rates/pages/XmlView.aspx?data=yieldyear&year="
  +:+ format_int year.

(** The string that [filepath] returns, [os.path.join(dirname, fn)]; the
    pipeline above identifies it with the year. *)
Definition path_name (year : Z) : string :=
  let dirname := "xml" in
  let fn := format_int year +:+ ".xml" in
  dirname +:+ "/" +:+ fn.

Section Staleness.
Context `{Library}.

(** The years that [get_datapoints] does not take from the cache when it
    is called without [from_web]. *)
Definition stale (w : world) (year : Z) : bool :=
  (year =? today_year w)%Z || bool_decide (xml_files w !! year = None).

End Staleness.

(** ** Sample worlds for the properties of the pipeline *)

Module Scenario.

(** The clock reads 2021; the cache holds a file for 2020; the service
    answers 2021 with the sample feed and any other year with an error
    page; the persisted table is [df0]. *)
Definition world_cached (df0 : list (@row Sample.library)) : world :=
  {| today_year := 2021;
     web := fun y => if (y =? 2021)%Z then Sample.render Sample.doc_2021
                     else "Error: no data";
     requests := [];
     xml_dir := true;
     xml_files := {[ 2020%Z := Sample.render Sample.doc_2021_reversed ]};
     csv := Some (@csv_text Sample.library df0) |}.

(** A year later: the clock reads 2022, the cache is empty and the service
    still answers 2021 with the sample feed. *)
Definition world_2022 : world :=
  {| today_year := 2022;
     web := fun y => if (y =? 2021)%Z then Sample.render Sample.doc_2021
                     else "Error: no data";
     requests := [];
     xml_dir := false;
     xml_files := ∅;
     csv := None |}.

(** The first year of the series: the clock reads 1990 and the service
    answers every year with the sample feed; nothing is on disk. *)
Definition world_1990 : world :=
  {| today_year := 1990;
     web := fun _ => Sample.render Sample.doc_2021;
     requests := [];
     xml_dir := false;
     xml_files := ∅;
     csv := None |}.

Definition dec31 : date := mkdate 2020 12 31.

(** The rows that [doc_2021_reversed] is parsed to. *)
Definition rows_reversed : list (@row Sample.library) :=
  [Sample.flat_row (Sample.jan 5) 8; Sample.flat_row (Sample.jan 4) 9].

End Scenario.

(** * Properties *)

(** ** The parsers *)

Section ParsingFacts.
Context `{Library}.

Lemma yield_each_all_ok {A B : Type} (f : A -> result B) (g : A -> B) (l : list A) :
  Forall (fun a => f a = Ok (g a)) l -> yield_each f l = (map g l, None).
Proof.
  induction 1 as [|a l Ha _ IH]; simpl; [reflexivity|].
  rewrite Ha, IH. reflexivity.
Qed.

Lemma yield_each_all_raise {A B : Type} (f : A -> result B) (e : exn) (l : list A) :
  (forall a, f a = Raise e) ->
  yield_each f l = ([], match l with [] => None | _ :: _ => Some e end).
Proof.
  intros Hf. destruct l as [|a l]; simpl; [reflexivity|].
  rewrite Hf. reflexivity.
Qed.



Lemma lookup_items {V : Type} (f : string -> V) (keys : list string) (key : string) :
  key ∈ keys ->
  (list_to_map (map (fun k => (k, f k)) keys) : gmap string V) !! key = Some (f key).
Proof.
  induction keys as [|k keys IH]; intros Hin; [inversion Hin|].
  simpl. destruct (decide (k = key)) as [->|Hne].
  - apply lookup_insert_eq.
  - rewrite lookup_insert_ne by exact Hne.
    apply IH. inversion Hin; subst; [congruence|assumption].
Qed.



Lemma point_2_raises (prop : node) : point_2 prop = Raise TypeError.
Proof. unfold point_2. destruct (find "NEW_DATE" prop); reflexivity. Qed.

Lemma point_children_unparsed (children : list node) (child : node)
    (point : gmap string (number pyfloat)) :
  child ∈ children ->
  String.prefix "BC_" (tag_name child) = true ->
  py_float (text child) = None ->
  point_children children point = Raise ValueError.
Proof.
  intros Hin Hpre Hnone. revert point.
  induction Hin as [child rest|child c rest _ IH]; intros point; simpl.
  - rewrite Hpre, Hnone. reflexivity.
  - destruct (String.prefix "BC_" (tag_name c)); [|apply IH; assumption].
    destruct (py_float (text c)); [apply IH; assumption|reflexivity].
Qed.

Lemma point_children_keys (children : list node)
    (point fs : gmap string (number pyfloat)) (key : string) :
  point_children children point = Ok fs ->
  is_Some (fs !! key) ->
  is_Some (point !! key)
  \/ exists child, child ∈ children /\ tag_name child = key
                   /\ String.prefix "BC_" key = true.
Proof.
  revert point. induction children as [|c rest IH]; intros point Hrun Hkey; simpl in Hrun.
  - injection Hrun as <-. left. exact Hkey.
  - destruct (String.prefix "BC_" (tag_name c)) eqn:Hpre.
    + destruct (py_float (text c)) as [x|]; [|discriminate].
      destruct (IH _ Hrun Hkey) as [Hin|(child & Hin & Hnm & Hp)].
      * destruct (decide (tag_name c = key)) as [Heq|Hne].
        -- right. exists c. split; [left|]. split; [exact Heq|]. rewrite <- Heq. exact Hpre.
        -- left. rewrite lookup_insert_ne in Hin by exact Hne. exact Hin.
      * right. exists child. split; [right; exact Hin|]. split; assumption.
    + destruct (IH _ Hrun Hkey) as [Hin|(child & Hin & Hnm & Hp)].
      * left. exact Hin.
      * right. exists child. split; [right; exact Hin|]. split; assumption.
Qed.

End ParsingFacts.







(** C6, as stated, fails: the sample feed without entries is parsed to an
    empty sequence of records and no exception is raised. *)
Lemma no_entry_document_parses_silently :
  find_all "content" (Sample.soup (Sample.render Sample.doc_no_entry)) = []
  /\ @yield_datapoints_from_string Sample.library (Sample.render Sample.doc_no_entry)
     = ([], None)
  /\ ~ (exists e, snd (@yield_datapoints_from_string Sample.library
                         (Sample.render Sample.doc_no_entry)) = Some e).
Proof.
  split; [reflexivity|]. split; [reflexivity|].
  intros [e He]. vm_compute in He. discriminate He.
Qed.

(** C6, amended. For a document with no [content] element the parser yields
    the empty sequence and raises nothing; the failure appears only when
    [get_df] selects the schema columns from the empty frame, as a
    [KeyError]. *)
Theorem no_entries_empty_then_key_error `{Library} (xml_content : string) :
  find_all "content" (BeautifulSoup xml_content) = [] ->
  yield_datapoints_from_string xml_content = ([], None)
  /\ frame_of (yield_datapoints_from_string xml_content) = Raise KeyError.
Proof.
  intros Hnone. unfold yield_datapoints_from_string. rewrite Hnone.
  split; reflexivity.
Qed.

Lemma no_entries_empty_then_key_error_witness :
  @yield_datapoints_from_string Sample.library (Sample.render Sample.doc_no_entry)
  = ([], None)
  /\ @frame_of Sample.library
       (@yield_datapoints_from_string Sample.library
          (Sample.render Sample.doc_no_entry)) = Raise KeyError.
Proof.
  apply (@no_entries_empty_then_key_error Sample.library
           (Sample.render Sample.doc_no_entry)).
  reflexivity.
Defined.

(** C9. The alternative parser raises on every document in which it finds
    an entry, a [TypeError], because [get_date] receives the [NEW_DATE]
    element and not its text; so it yields no record at all.  Its loop over
    the children has no zero default (a [BC_] field whose text [float]
    rejects raises [ValueError]) and records only the fields that occur in
    the entry. *)
Theorem alternative_parser_always_raises `{Library} (xml_content : string) :
  let properties := find_all "properties" (BeautifulSoup xml_content) in
  (properties <> [] ->
   yield_datapoints_from_string_2 xml_content = ([], Some TypeError))
  /\ fst (yield_datapoints_from_string_2 xml_content) = []
  /\ (forall prop child,
        prop ∈ properties -> child ∈ findChildren prop ->
        String.prefix "BC_" (tag_name child) = true ->
        py_float (text child) = None ->
        point_children (findChildren prop) ∅ = Raise ValueError)
  /\ (forall prop fs key,
        prop ∈ properties ->
        point_children (findChildren prop) ∅ = Ok fs ->
        is_Some (fs !! key) ->
        exists child, child ∈ findChildren prop /\ tag_name child = key).
Proof.
  intros properties.
  assert (Hrun : yield_datapoints_from_string_2 xml_content
                 = ([], match properties with [] => None | _ :: _ => Some TypeError end)).
  { apply yield_each_all_raise. apply point_2_raises. }
  split; [|split; [|split]].
  - intros Hne. rewrite Hrun. destruct properties; [congruence|reflexivity].
  - rewrite Hrun. reflexivity.
  - intros prop child _ Hchild Hpre Hnone.
    exact (point_children_unparsed _ child ∅ Hchild Hpre Hnone).
  - intros prop fs key _ Hrun' Hkey.
    destruct (point_children_keys _ _ _ key Hrun' Hkey) as [Hin|(child & Hin & Hnm & _)].
    + rewrite lookup_empty in Hin. destruct Hin as [? Hin]. discriminate Hin.
    + exists child. split; assumption.
Qed.

Lemma alternative_parser_always_raises_witness :
  @yield_datapoints_from_string_2 Sample.library (Sample.render Sample.doc_2021)
  = ([], Some TypeError).
Proof.
  apply (proj1 (@alternative_parser_always_raises Sample.library
                  (Sample.render Sample.doc_2021))).
  vm_compute. discriminate.
Defined.

(** ** The web request and the cache *)

Lemma prefix_app (p s : string) :
  String.prefix p s = true <-> exists t, s = p +:+ t.
Proof.
  revert s. induction p as [|a p IH]; intros s.
  - split; [intros _; exists s; reflexivity|]. intros _. destruct s; reflexivity.
  - destruct s as [|b s]; simpl.
    + split; [discriminate|]. intros [t Ht]. discriminate Ht.
    + destruct (ascii_dec a b) as [->|Hne].
      * rewrite IH. split; intros [t Ht]; exists t; [rewrite Ht; reflexivity|].
        injection Ht as Ht. exact Ht.
      * split; [discriminate|]. intros [t Ht]. injection Ht as Hab _. congruence.
Qed.

Lemma py_in_nil (sub : string) : py_in sub "" = String.prefix sub "" || false.
Proof. reflexivity. Qed.

Lemma py_in_cons (sub : string) (c : ascii) (s : string) :
  py_in sub (String c s) = String.prefix sub (String c s) || py_in sub s.
Proof. reflexivity. Qed.

Lemma py_in_contains (sub s : string) : py_in sub s = true <-> contains sub s.
Proof.
  split.
  - induction s as [|c s IH]; intros Hin.
    + rewrite py_in_nil, orb_false_r in Hin. apply prefix_app in Hin as [t Ht].
      exists "", t. exact Ht.
    + rewrite py_in_cons in Hin. apply orb_true_iff in Hin as [Hpre|Hrest].
      * apply prefix_app in Hpre as [t Ht]. exists "", t. exact Ht.
      * destruct (IH Hrest) as (pre & post & Heq).
        exists (String c pre), post. rewrite Heq. reflexivity.
  - intros (pre & post & Heq). revert s Heq.
    induction pre as [|c pre IH]; intros s Heq.
    + assert (Hpre : String.prefix sub s = true) by (apply prefix_app; exists post; exact Heq).
      destruct s; [rewrite py_in_nil|rewrite py_in_cons]; rewrite Hpre; reflexivity.
    + destruct s as [|c' s]; [discriminate Heq|]. injection Heq as _ Heq.
      rewrite py_in_cons, (IH s Heq). apply orb_true_r.
Qed.

Lemma py_in_not_contains (sub s : string) : py_in sub s = false <-> ~ contains sub s.
Proof.
  rewrite <- py_in_contains. destruct (py_in sub s); split; congruence.
Qed.

Section PipelineFacts.
Context `{Library}.

Lemma fetch_condition_dec (year : Z) (from_web : bool) (w : world) :
  fetch_condition year from_web w \/ ~ fetch_condition year from_web w.
Proof.
  unfold fetch_condition.
  destruct from_web; [left; left; reflexivity|].
  destruct (decide (year = today_year w)); [left; right; left; assumption|].
  destruct (xml_files w !! year) eqn:E; [|left; right; right; reflexivity].
  right. intros [?|[?|?]]; congruence.
Qed.

(** What [get_xml_content_from_web] returns and leaves behind. *)
Lemma get_xml_content_from_web_run (year : Z) (w : world) :
  exists w',
    get_xml_content_from_web year w
    = ((if py_in "Error" (web w year) then Raise ValueError else Ok (web w year)), w')
    /\ today_year w' = today_year w /\ (forall y, web w' y = web w y)
    /\ requests w' = requests w ++ [year]
    /\ xml_files w' = xml_files w /\ csv w' = csv w.
Proof.
  unfold get_xml_content_from_web, bind, get_web_xml. simpl.
  destruct (py_in "Error" (web w year)); eexists; (split; [reflexivity|]);
    simpl; auto.
Qed.

(** The two paths of [get_datapoints]. *)
Lemma get_datapoints_run (year : Z) (from_web : bool) (w : world) :
  exists r w',
    get_datapoints year from_web w = (r, w')
    /\ today_year w' = today_year w /\ (forall y, web w' y = web w y)
    /\ csv w' = csv w
    /\ ((fetch_condition year from_web w
         /\ requests w' = requests w ++ [year]
         /\ ((py_in "Error" (web w year) = true /\ r = Raise ValueError
              /\ xml_files w' = xml_files w)
             \/ (py_in "Error" (web w year) = false
                 /\ r = Ok (yield_datapoints_from_string (web w year))
                 /\ xml_files w' = <[year := web w year]> (xml_files w))))
        \/ (~ fetch_condition year from_web w
            /\ requests w' = requests w
            /\ xml_files w' = xml_files w
            /\ exists c, xml_files w !! year = Some c
                         /\ r = Ok (yield_datapoints_from_string
                                      (universal_newlines c)))).
Proof.
  unfold get_datapoints, must_fetch, fetch_condition.
  destruct from_web.
  - unfold bind at 1. unfold ret at 1. unfold bind at 1.
    destruct (get_xml_content_from_web_run year w)
      as (w1 & -> & Ht & Hw & Hr & Hf & Hc).
    destruct (py_in "Error" (web w year)) eqn:E.
    + do 2 eexists. split; [reflexivity|]. repeat (split; [assumption|]).
      left. split; [left; reflexivity|]. split; [assumption|]. left. auto.
    + do 2 eexists. split; [reflexivity|]. simpl. repeat (split; [assumption|]).
      left. split; [left; reflexivity|]. split; [assumption|]. right.
      rewrite Hf. auto.
  - unfold bind at 1. unfold bind at 1. unfold today at 1.
    destruct (Z.eqb_spec year (today_year w)) as [Heq|Hne].
    + unfold ret at 1. unfold bind at 1.
      destruct (get_xml_content_from_web_run year w)
        as (w1 & -> & Ht & Hw & Hr & Hf & Hc).
      destruct (py_in "Error" (web w year)) eqn:E.
      * do 2 eexists. split; [reflexivity|]. repeat (split; [assumption|]).
        left. split; [right; left; assumption|]. split; [assumption|]. left. auto.
      * do 2 eexists. split; [reflexivity|]. simpl. repeat (split; [assumption|]).
        left. split; [right; left; assumption|]. split; [assumption|]. right.
        rewrite Hf. auto.
    + unfold bind at 1. unfold filepath at 1. unfold bind at 1.
      unfold path_exists at 1. cbn [xml_files]. unfold ret at 1.
      destruct (xml_files w !! year) as [c|] eqn:E.
      * rewrite bool_decide_eq_true_2 by eauto. cbn [negb].
        unfold read_local_xml, bind, filepath, ret. cbn. rewrite E.
        do 2 eexists. split; [reflexivity|]. cbn. repeat (split; [reflexivity|]).
        right. split; [intros [?|[?|?]]; congruence|].
        split; [reflexivity|]. split; [reflexivity|]. exists c. auto.
      * rewrite bool_decide_eq_false_2 by (intros [? ?]; congruence). cbn [negb].
        unfold bind at 1.
        match goal with
        | |- context [get_xml_content_from_web year ?w0] =>
            destruct (get_xml_content_from_web_run year w0)
              as (w1 & -> & Ht & Hw & Hr & Hf & Hc)
        end.
        cbn in Ht, Hw, Hr, Hf, Hc |- *.
        destruct (py_in "Error" (web w year)) eqn:E'.
        -- do 2 eexists. split; [reflexivity|]. repeat (split; [assumption|]).
           left. split; [right; right; reflexivity|]. split; [assumption|]. left. auto.
        -- do 2 eexists. split; [reflexivity|]. cbn. repeat (split; [assumption|]).
           left. split; [right; right; reflexivity|]. split; [assumption|]. right.
           rewrite Hf. auto.
Qed.

End PipelineFacts.

(** C3. Cache-or-fetch policy: [get_datapoints] sends a request for the year
    exactly when [from_web] is set, or the year is the current year, or the
    year has no cache file; when it does and returns, the fetched body has
    been written to the year's cache file.  A cached past year without
    [from_web] sends no request; the current year always sends one. *)
Theorem cache_or_fetch_policy `{Library} (year : Z) (from_web : bool) (w : world) :
  let r := fst (get_datapoints year from_web w) in
  let w' := snd (get_datapoints year from_web w) in
  (requests w' = requests w ++ [year] <-> fetch_condition year from_web w)
  /\ (requests w' = requests w <-> ~ fetch_condition year from_web w)
  /\ (fetch_condition year from_web w -> forall g, r = Ok g ->
      xml_files w' = <[year := web w year]> (xml_files w)
      /\ g = yield_datapoints_from_string (web w year))
  /\ (from_web = false -> year <> today_year w -> is_Some (xml_files w !! year) ->
      requests w' = requests w)
  /\ (year = today_year w -> requests w' = requests w ++ [year]).
Proof.
  intros r w'. subst r w'.
  destruct (get_datapoints_run year from_web w)
    as (r & w' & -> & _ & _ & _ & Hcases). cbn [fst snd].
  assert (Hgrow : requests w ++ [year] <> requests w).
  { intros Heq. apply (f_equal length) in Heq. rewrite length_app in Heq.
    simpl in Heq. lia. }
  destruct Hcases as [(Hcond & Hreq & Hfetch)|(Hcond & Hreq & Hfiles & c & Hc & Hr)].
  - split; [tauto|]. split; [split; [congruence|tauto]|].
    split; [|split; [|tauto]].
    + intros _ g Hg.
      destruct Hfetch as [(_ & Hr & _)|(_ & Hr & Hfiles)]; [congruence|].
      split; [exact Hfiles|congruence].
    + intros Hfw Hy [c Hc]. exfalso.
      destruct Hcond as [?|[?|?]]; congruence.
  - split; [split; [congruence|tauto]|]. split; [tauto|].
    split; [tauto|]. split; [tauto|].
    intros Hy. exfalso. apply Hcond. right. left. exact Hy.
Qed.

Lemma cache_or_fetch_policy_witness :
  let w := Sample.world_2021 (Sample.render Sample.doc_2021) [] in
  requests (snd (@get_datapoints Sample.library 2021 false w)) = [2021%Z]
  /\ xml_files (snd (@get_datapoints Sample.library 2021 false w))
     = <[2021%Z := Sample.render Sample.doc_2021]> ∅.
Proof.
  intros w.
  pose proof (@cache_or_fetch_policy Sample.library 2021 false w)
    as (_ & _ & Hwrite & _ & Hcurrent).
  split.
  - apply Hcurrent. reflexivity.
  - refine (proj1 (Hwrite _ _ eq_refl)). right. left. reflexivity.
Defined.

(** C4. Error-marker detection: [get_xml_content_from_web] raises exactly
    when the body contains "Error", and returns the body unchanged
    otherwise; [get_datapoints] never writes such a body to the cache, and
    on its fetch path it raises. *)
Theorem error_marker_detection `{Library} (year : Z) (from_web : bool) (w : world) :
  let body := web w year in
  ((exists e, fst (get_xml_content_from_web year w) = Raise e) <-> contains "Error" body)
  /\ (contains "Error" body ->
      fst (get_xml_content_from_web year w) = Raise ValueError)
  /\ (~ contains "Error" body -> fst (get_xml_content_from_web year w) = Ok body)
  /\ (contains "Error" body ->
      xml_files (snd (get_datapoints year from_web w)) = xml_files w)
  /\ (contains "Error" body -> fetch_condition year from_web w ->
      fst (get_datapoints year from_web w) = Raise ValueError).
Proof.
  intros body. subst body.
  destruct (get_xml_content_from_web_run year w) as (w1 & -> & _).
  destruct (get_datapoints_run year from_web w)
    as (r & w' & -> & _ & _ & _ & Hcases). cbn [fst snd].
  rewrite <- py_in_contains.
  destruct (py_in "Error" (web w year)) eqn:E.
  - split; [split; [reflexivity|intros _; eexists; reflexivity]|].
    split; [reflexivity|]. split; [congruence|].
    destruct Hcases as [(Hcond & _ & [(_ & Hr & Hf)|(? & _)])|(Hcond & _ & Hf & _)];
      try congruence; (split; [intros _; exact Hf|tauto || (intros _ _; exact Hr)]).
  - split; [split; [intros [e He]; discriminate He|discriminate]|].
    split; [discriminate|]. split; [reflexivity|]. split; discriminate.
Qed.

Lemma sample_error_page : contains "Error" "Error: no data".
Proof. exists "", ": no data". reflexivity. Qed.

Lemma error_marker_detection_witness :
  let w := Sample.world_2021 (Sample.render Sample.doc_2021) [] in
  fst (get_xml_content_from_web 2020 w) = Raise ValueError
  /\ xml_files (snd (@get_datapoints Sample.library 2020 false w)) = ∅
  /\ fst (@get_datapoints Sample.library 2020 false w) = Raise ValueError.
Proof.
  intros w.
  pose proof (@error_marker_detection Sample.library 2020 false w)
    as (_ & Hraise & _ & Hcache & Hpath).
  split; [exact (Hraise sample_error_page)|].
  split; [exact (Hcache sample_error_page)|].
  apply (Hpath sample_error_page). right. right. reflexivity.
Defined.

(** ** Order on dates *)








(** ** Dropping duplicates and merging *)

Section FrameFacts.
Context `{Library}.
Implicit Types (df : table) (r : row) (D : date).

Lemma index_app df df' : index (df ++ df') = index df ++ index df'.
Proof. apply map_app. Qed.

Lemma elem_of_index D df : D ∈ index df <-> exists r, r ∈ df /\ row_date r = D.
Proof.
  induction df as [|r0 df IH]; simpl.
  - split; [intros Hin; inversion Hin|]. intros (r & Hin & _). inversion Hin.
  - rewrite elem_of_cons, IH. split.
    + intros [->|(r & Hin & Hr)]; [exists r0; split; [left|reflexivity]|].
      exists r. split; [right; exact Hin|exact Hr].
    + intros (r & Hin & Hr). apply elem_of_cons in Hin as [->|Hin]; [left; auto|].
      right. exists r. auto.
Qed.

Lemma drop_duplicates_last_cons r df :
  drop_duplicates_last (r :: df)
  = if bool_decide (row_date r ∈ index df)
    then drop_duplicates_last df
    else r :: drop_duplicates_last df.
Proof. reflexivity. Qed.

Lemma drop_duplicates_last_sublist df : drop_duplicates_last df `sublist_of` df.
Proof.
  induction df as [|r df IH]; [constructor|].
  rewrite drop_duplicates_last_cons. case_bool_decide.
  - apply sublist_cons. exact IH.
  - apply sublist_skip. exact IH.
Qed.

Lemma index_drop_duplicates_last D df :
  D ∈ index (drop_duplicates_last df) <-> D ∈ index df.
Proof.
  induction df as [|r df IH]; [reflexivity|].
  rewrite drop_duplicates_last_cons. case_bool_decide as Hdup; simpl.
  - rewrite IH, elem_of_cons. split; [auto|]. intros [->|?]; assumption.
  - rewrite !elem_of_cons, IH. reflexivity.
Qed.

Lemma NoDup_index_drop_duplicates_last df :
  NoDup (index (drop_duplicates_last df)).
Proof.
  induction df as [|r df IH]; [constructor|].
  rewrite drop_duplicates_last_cons. case_bool_decide as Hdup; [exact IH|].
  simpl. constructor; [|exact IH].
  rewrite index_drop_duplicates_last. exact Hdup.
Qed.



(** Rows of the first table survive exactly when their date does not
    occur in the second. *)
Lemma drop_duplicates_last_app df df' :
  drop_duplicates_last (df ++ df')
  = filter (fun r => row_date r ∉ index df') (drop_duplicates_last df)
    ++ drop_duplicates_last df'.
Proof.
  induction df as [|r df IH]; [reflexivity|].
  rewrite <- app_comm_cons, !drop_duplicates_last_cons, index_app.
  destruct (decide (row_date r ∈ index df)) as [Hdf|Hdf];
    destruct (decide (row_date r ∈ index df')) as [Hdf'|Hdf'].
  - rewrite !bool_decide_eq_true_2; [exact IH|exact Hdf|apply elem_of_app; auto].
  - rewrite !bool_decide_eq_true_2; [exact IH|exact Hdf|apply elem_of_app; auto].
  - rewrite bool_decide_eq_true_2 by (apply elem_of_app; auto).
    rewrite bool_decide_eq_false_2 by exact Hdf.
    rewrite filter_cons_False by tauto. exact IH.
  - rewrite !bool_decide_eq_false_2;
      [|exact Hdf|rewrite elem_of_app; tauto].
    rewrite filter_cons_True by exact Hdf'.
    rewrite <- app_comm_cons, IH. reflexivity.
Qed.

Lemma filter_none {A : Type} (P : A -> Prop) `{!forall x, Decision (P x)} (l : list A) :
  (forall x, x ∈ l -> ~ P x) -> filter P l = [].
Proof.
  induction l as [|x l IH]; intros Hall; [reflexivity|].
  rewrite filter_cons_False by (apply Hall; left).
  apply IH. intros y Hy. apply Hall. right. exact Hy.
Qed.



Lemma rows_at_nil D df : D ∉ index df -> rows_at D df = [].
Proof.
  intros Hnot. apply filter_none. intros r Hr Heq.
  apply Hnot. apply elem_of_index. eauto.
Qed.

Lemma rows_at_nonempty D df : D ∈ index df -> rows_at D df <> [].
Proof.
  intros Hin Hnil. apply elem_of_index in Hin as (r & Hr & Hd).
  assert (Hmem : r ∈ rows_at D df) by (apply list_elem_of_filter; auto).
  rewrite Hnil in Hmem. inversion Hmem.
Qed.

(** After dropping duplicates a date is carried by its last row only. *)
Lemma rows_at_drop_duplicates_last D df :
  rows_at D (drop_duplicates_last df)
  = match last (rows_at D df) with
    | Some r => [r]
    | None => []
    end.
Proof.
  induction df as [|r df IH]; [reflexivity|].
  rewrite drop_duplicates_last_cons. unfold rows_at in *.
  case_bool_decide as Hdup; destruct (decide (row_date r = D)) as [Heq|Hne].
  - rewrite IH, (filter_cons_True _ r) by exact Heq.
    rewrite Heq in Hdup. apply rows_at_nonempty in Hdup. unfold rows_at in Hdup.
    destruct (filter (fun r0 => row_date r0 = D) df); [congruence|].
    rewrite last_cons_cons. reflexivity.
  - rewrite IH, (filter_cons_False _ r) by exact Hne. reflexivity.
  - rewrite !(filter_cons_True _ r) by exact Heq. rewrite IH.
    rewrite Heq in Hdup. apply rows_at_nil in Hdup. unfold rows_at in Hdup.
    rewrite Hdup. reflexivity.
  - rewrite !(filter_cons_False _ r) by exact Hne. exact IH.
Qed.

Lemma rows_at_merge_dfs D df0 df1 r :
  last (rows_at D df1) = Some r -> rows_at D (merge_dfs df0 df1) = [r].
Proof.
  intros Hlast. unfold merge_dfs.
  rewrite rows_at_drop_duplicates_last. unfold rows_at in *.
  rewrite filter_app, last_app, Hlast. reflexivity.
Qed.

(** Order is inherited by sublists. *)
Lemma forallb_index_sublist (p : date -> bool) df df' :
  df' `sublist_of` df -> forallb p (index df) = true -> forallb p (index df') = true.
Proof.
  induction 1 as [|r l1 l2 _ IH|r l1 l2 _ IH]; simpl; [reflexivity| |].
  - intros Hall. apply andb_true_iff in Hall as [Hr Hall].
    rewrite Hr, (IH Hall). reflexivity.
  - intros Hall. apply andb_true_iff in Hall as [_ Hall]. exact (IH Hall).
Qed.

Lemma sorted_by_date_sublist df df' :
  df' `sublist_of` df -> sorted_by_date df -> sorted_by_date df'.
Proof.
  unfold sorted_by_date.
  induction 1 as [|r l1 l2 Hsub IH|r l1 l2 _ IH]; simpl; [reflexivity| |].
  - intros Hs. apply andb_true_iff in Hs as [Hr Hs].
    rewrite (forallb_index_sublist _ _ _ Hsub Hr), (IH Hs). reflexivity.
  - intros Hs. apply andb_true_iff in Hs as [_ Hs]. exact (IH Hs).
Qed.

Lemma sorted_by_date_app df df' :
  sorted_by_date df -> sorted_by_date df' ->
  (forall a b, a ∈ df -> b ∈ df' -> date_leb (row_date a) (row_date b) = true) ->
  sorted_by_date (df ++ df').
Proof.
  unfold sorted_by_date. intros Hs Hs' Hcross.
  induction df as [|r df IH]; [exact Hs'|]. simpl in *.
  apply andb_true_iff in Hs as [Hr Hs].
  apply andb_true_iff. split.
  - rewrite index_app, forallb_app, Hr. simpl.
    apply forallb_forall. intros d Hd.
    apply list_elem_of_In, elem_of_index in Hd as (b & Hb & <-).
    apply Hcross; [left|exact Hb].
  - apply IH; [exact Hs|]. intros a b Ha Hb. apply Hcross; [right; exact Ha|exact Hb].
Qed.

(** The merge sorts nothing; it is ordered when its two parts are and the
    persisted rows that were not fetched again come first. *)
Lemma merge_dfs_sorted df0 df1 :
  sorted_by_date df0 -> sorted_by_date df1 ->
  Forall (fun r0 => row_date r0 ∈ index df1
                    \/ Forall (fun r1 => date_leb (row_date r0) (row_date r1) = true) df1)
         df0 ->
  sorted_by_date (merge_dfs df0 df1).
Proof.
  intros Hs0 Hs1 Hcross. unfold merge_dfs. rewrite drop_duplicates_last_app.
  apply sorted_by_date_app.
  - apply (sorted_by_date_sublist df0); [|exact Hs0].
    etransitivity; [apply sublist_filter|apply drop_duplicates_last_sublist].
  - apply (sorted_by_date_sublist df1); [|exact Hs1].
    apply drop_duplicates_last_sublist.
  - intros a b Ha Hb. apply list_elem_of_filter in Ha as [Hnot Ha].
    pose proof (elem_of_sublist _ _ _ Ha (drop_duplicates_last_sublist df0)) as Ha0.
    pose proof (elem_of_sublist _ _ _ Hb (drop_duplicates_last_sublist df1)) as Hb1.
    rewrite Forall_forall in Hcross.
    destruct (Hcross a Ha0) as [Hin|Hle]; [contradiction|].
    rewrite Forall_forall in Hle. apply Hle. exact Hb1.
Qed.

End FrameFacts.

(** ** Running the pipeline *)

Section UpdateFacts.
Context `{Library}.

Lemma bind_ok {A B : Type} (m : M A) (k : A -> M B) (w w1 : world) (a : A) :
  m w = (Ok a, w1) -> bind m k w = k a w1.
Proof. unfold bind. intros ->. reflexivity. Qed.

Lemma bind_raise {A B : Type} (m : M A) (k : A -> M B) (w w1 : world) (e : exn) :
  m w = (Raise e, w1) -> bind m k w = (Raise e, w1).
Proof. unfold bind. intros ->. reflexivity. Qed.

Lemma bind_inv {A B : Type} (m : M A) (k : A -> M B) (w w' : world) (r : result B) :
  bind m k w = (r, w') ->
  (exists a w1, m w = (Ok a, w1) /\ k a w1 = (r, w'))
  \/ (exists e, m w = (Raise e, w') /\ r = Raise e).
Proof.
  unfold bind. destruct (m w) as [[a|e] w1]; intros Hrun.
  - left. eauto.
  - right. injection Hrun as <- <-. eauto.
Qed.

Lemma cache_kept_refl (w : world) : cache_kept w w.
Proof. unfold cache_kept. auto. Qed.

Lemma cache_kept_trans (w1 w2 w3 : world) :
  cache_kept w1 w2 -> cache_kept w2 w3 -> cache_kept w1 w3.
Proof.
  intros (Ht & Hw & Hf) (Ht' & Hw' & Hf'). split; [congruence|].
  split; [intros y; rewrite Hw', Hw; reflexivity|].
  intros y c Hy Hc. apply Hf'; [congruence|]. apply Hf; assumption.
Qed.

Lemma get_datapoints_kept (year : Z) (w w' : world) (r : result (gen datapoint)) :
  get_datapoints year false w = (r, w') -> cache_kept w w' /\ csv w' = csv w.
Proof.
  destruct (get_datapoints_run year false w)
    as (r0 & w0 & -> & Ht & Hw & Hc & Hcases).
  intros [= <- <-]. split; [|exact Hc].
  split; [exact Ht|]. split; [exact Hw|].
  intros y c Hy Hfile.
  destruct Hcases as [(Hcond & _ & [(_ & _ & ->)|(_ & _ & ->)])|(_ & _ & -> & _)];
    try assumption.
  destruct (decide (year = y)) as [->|Hne].
  - exfalso. destruct Hcond as [?|[?|?]]; congruence.
  - rewrite lookup_insert_ne by exact Hne. exact Hfile.
Qed.


Lemma get_df_unfold (year : Z) (w : world) :
  get_df year w
  = (rbind (fst (get_datapoints year false w)) frame_of,
     snd (get_datapoints year false w)).
Proof.
  unfold get_df, bind, lift.
  destruct (get_datapoints year false w) as [[g|e] w']; reflexivity.
Qed.

Lemma get_df_kept (year : Z) (w w' : world) (r : result table) :
  get_df year w = (r, w') -> cache_kept w w' /\ csv w' = csv w.
Proof.
  rewrite get_df_unfold. intros [= _ <-].
  apply (get_datapoints_kept year w _ (fst (get_datapoints year false w))).
  apply surjective_pairing.
Qed.


Lemma get_df_each_kept (years : list Z) (w w' : world) (r : result (list table)) :
  get_df_each years w = (r, w') -> cache_kept w w' /\ csv w' = csv w.
Proof.
  revert w r w'. induction years as [|y years IH]; intros w r w'; simpl.
  - intros [= _ <-]. split; [apply cache_kept_refl|reflexivity].
  - intros Hrun. apply bind_inv in Hrun as [(df & w1 & Hy & Hrest)|(e & Hy & _)].
    + apply get_df_kept in Hy as [Hk1 Hc1].
      apply bind_inv in Hrest as [(dfs & w2 & Hys & Hret)|(e & Hys & _)].
      * injection Hret as _ <-. apply IH in Hys as [Hk2 Hc2].
        split; [eapply cache_kept_trans; eassumption|congruence].
      * apply IH in Hys as [Hk2 Hc2].
        split; [eapply cache_kept_trans; eassumption|congruence].
    + apply get_df_kept in Hy. exact Hy.
Qed.

Lemma get_df_each_length (years : list Z) (w w' : world) (dfs : list table) :
  get_df_each years w = (Ok dfs, w') -> length dfs = length years.
Proof.
  revert w dfs w'. induction years as [|y years IH]; intros w dfs w'; simpl.
  - intros [= <- _]. reflexivity.
  - intros Hrun. apply bind_inv in Hrun as [(df & w1 & Hy & Hrest)|(e & _ & He)];
      [|discriminate He].
    apply bind_inv in Hrest as [(dfs' & w2 & Hys & Hret)|(e & _ & He)];
      [|discriminate He].
    injection Hret as <- _. simpl. f_equal. exact (IH _ _ _ Hys).
Qed.

Lemma get_df_each_app (years years' : list Z) (w w' : world) (dfs : list table) :
  get_df_each (years ++ years') w = (Ok dfs, w') ->
  exists dfs1 dfs2 w1,
    get_df_each years w = (Ok dfs1, w1)
    /\ get_df_each years' w1 = (Ok dfs2, w')
    /\ dfs = dfs1 ++ dfs2.
Proof.
  revert w dfs. induction years as [|y years IH]; intros w dfs; simpl.
  - intros Hrun. exists [], dfs, w. auto.
  - intros Hrun. apply bind_inv in Hrun as [(df & w1 & Hy & Hrest)|(e & _ & He)];
      [|discriminate He].
    apply bind_inv in Hrest as [(dfs' & w2 & Hys & Hret)|(e & _ & He)];
      [|discriminate He].
    injection Hret as <- <-.
    destruct (IH _ _ Hys) as (dfs1 & dfs2 & wm & H1 & H2 & ->).
    exists (df :: dfs1), dfs2, wm. split; [|auto].
    rewrite (bind_ok _ _ _ _ _ Hy), (bind_ok _ _ _ _ _ H1). reflexivity.
Qed.


Lemma get_dfs_inv (years : list Z) (w w' : world) (df : table) :
  get_dfs years w = (Ok df, w') ->
  exists dfs, get_df_each years w = (Ok dfs, w') /\ dfs <> [] /\ df = concat dfs.
Proof.
  unfold get_dfs. intros Hrun.
  apply bind_inv in Hrun as [(dfs & w1 & Hys & Hcat)|(e & _ & He)];
    [|discriminate He].
  unfold lift in Hcat. injection Hcat as Hcat <-.
  exists dfs. split; [exact Hys|].
  destruct dfs; [discriminate Hcat|]. injection Hcat as <-. split; [congruence|reflexivity].
Qed.

Lemma get_dfs_kept (years : list Z) (w w' : world) (r : result table) :
  get_dfs years w = (r, w') -> cache_kept w w' /\ csv w' = csv w.
Proof.
  unfold get_dfs. intros Hrun.
  apply bind_inv in Hrun as [(dfs & w1 & Hys & Hcat)|(e & Hys & _)].
  - injection Hcat as _ <-. exact (get_df_each_kept _ _ _ _ Hys).
  - exact (get_df_each_kept _ _ _ _ Hys).
Qed.

(** A successful run of [update_dfs], step by step. *)
Lemma update_dfs_ok (w w1 : world) (content : string) (df0 df1 : table)
    (latest : date) :
  csv w = Some content ->
  csv_table content = Ok df0 ->
  max_date (index df0) = Ok latest ->
  get_dfs (range (year latest) (today_year w + 1)) w = (Ok df1, w1) ->
  exists w2,
    update_dfs w = (Ok (merge_dfs df0 df1), w2)
    /\ csv w2 = Some (csv_text (merge_dfs df0 df1))
    /\ requests w2 = requests w1
    /\ xml_files w2 = xml_files w1
    /\ cache_kept w1 w2.
Proof.
  intros Hcsv Hread Hmax Hget. unfold update_dfs.
  unfold bind at 1. unfold read_csv at 1. rewrite Hcsv, Hread.
  unfold bind at 1. unfold lift at 1. rewrite Hmax.
  unfold bind at 1. unfold today at 1.
  rewrite (bind_ok _ _ _ _ _ Hget).
  unfold bind, to_csv, ret. eexists. split; [reflexivity|].
  split; [reflexivity|]. split; [reflexivity|]. split; [reflexivity|].
  unfold cache_kept. simpl. auto.
Qed.

Lemma update_dfs_raise (w w1 : world) (content : string) (df0 : table)
    (latest : date) (e : exn) :
  csv w = Some content ->
  csv_table content = Ok df0 ->
  max_date (index df0) = Ok latest ->
  get_dfs (range (year latest) (today_year w + 1)) w = (Raise e, w1) ->
  update_dfs w = (Raise e, w1).
Proof.
  intros Hcsv Hread Hmax Hget. unfold update_dfs.
  unfold bind at 1. unfold read_csv at 1. rewrite Hcsv, Hread.
  unfold bind at 1. unfold lift at 1. rewrite Hmax.
  unfold bind at 1. unfold today at 1.
  rewrite (bind_raise _ _ _ _ _ Hget). reflexivity.
Qed.

(** [update_dfs] in all its outcomes. *)
Lemma update_dfs_cases (w : world) :
  (csv w = None /\ update_dfs w = (Raise FileNotFoundError, w))
  \/ (exists content e,
        csv w = Some content /\ csv_table content = Raise e
        /\ update_dfs w = (Raise e, w))
  \/ (exists content,
        csv w = Some content /\ csv_table content = Ok []
        /\ update_dfs w = (Raise ValueError, w))
  \/ exists content df0 latest,
       csv w = Some content /\ csv_table content = Ok df0
       /\ max_date (index df0) = Ok latest
       /\ ((exists e w1,
              get_dfs (range (year latest) (today_year w + 1)) w = (Raise e, w1)
              /\ update_dfs w = (Raise e, w1))
           \/ (exists df1 w1 w2,
                 get_dfs (range (year latest) (today_year w + 1)) w = (Ok df1, w1)
                 /\ update_dfs w = (Ok (merge_dfs df0 df1), w2)
                 /\ csv w2 = Some (csv_text (merge_dfs df0 df1))
                 /\ requests w2 = requests w1
                 /\ xml_files w2 = xml_files w1
                 /\ cache_kept w1 w2)).
Proof.
  destruct (csv w) as [content|] eqn:Hcsv.
  2:{ left. split; [reflexivity|]. unfold update_dfs, bind at 1, read_csv at 1.
      rewrite Hcsv. reflexivity. }
  right. destruct (csv_table content) as [df0|e] eqn:Hread.
  2:{ left. exists content, e. split; [reflexivity|]. split; [exact Hread|].
      unfold update_dfs, bind at 1, read_csv at 1. rewrite Hcsv, Hread. reflexivity. }
  right. destruct df0 as [|r0 df0].
  { left. exists content. split; [reflexivity|]. split; [exact Hread|].
    unfold update_dfs, bind at 1, read_csv at 1. rewrite Hcsv, Hread. reflexivity. }
  right. destruct (max_date (index (r0 :: df0))) as [latest|e] eqn:Hmax;
    [|discriminate Hmax].
  exists content, (r0 :: df0), latest.
  split; [reflexivity|]. split; [exact Hread|]. split; [exact Hmax|].
  destruct (get_dfs (range (year latest) (today_year w + 1)) w) as [[df1|e] w1] eqn:Hget.
  - right. exists df1, w1.
    destruct (update_dfs_ok w w1 content (r0 :: df0) df1 latest Hcsv Hread Hmax Hget)
      as (w2 & Hrun & Hrest).
    exists w2. auto.
  - left. exists e, w1. split; [reflexivity|].
    exact (update_dfs_raise w w1 content (r0 :: df0) latest e Hcsv Hread Hmax Hget).
Qed.

Lemma update_dfs_inv (w w' : world) (df : table) :
  update_dfs w = (Ok df, w') ->
  exists content df0 latest df1 w1,
    csv w = Some content
    /\ csv_table content = Ok df0
    /\ max_date (index df0) = Ok latest
    /\ get_dfs (range (year latest) (today_year w + 1)) w = (Ok df1, w1)
    /\ df = merge_dfs df0 df1
    /\ csv w' = Some (csv_text df)
    /\ requests w' = requests w1
    /\ xml_files w' = xml_files w1
    /\ cache_kept w1 w'.
Proof.
  intros Hrun.
  destruct (update_dfs_cases w)
    as [[_ Heq]|[(c & e & _ & _ & Heq)|[(c & _ & _ & Heq)
       |(content & df0 & latest & Hcsv & Hread & Hmax &
           [(e & w1 & _ & Heq)|(df1 & w1 & w2 & Hget & Heq & Hrest)])]]];
    rewrite Heq in Hrun; try discriminate Hrun.
  injection Hrun as <- <-.
  exists content, df0, latest, df1, w1. tauto.
Qed.

End UpdateFacts.

(** ** The merge of [update_dfs] *)

(** C1. Merge correctness: when the persisted table has a row for a date
    and the fetched table has rows for it too, [update_dfs] returns and
    persists a table with exactly one row for that date, the (last) fetched
    one. *)
Theorem update_prefers_fetched_rows `{Library}
    (w w1 : world) (content : string) (df0 df1 : table) (latest D : date)
    (persisted fetched : row) :
  csv w = Some content ->
  csv_table content = Ok df0 ->
  max_date (index df0) = Ok latest ->
  get_dfs (range (year latest) (today_year w + 1)) w = (Ok df1, w1) ->
  persisted ∈ df0 -> row_date persisted = D ->
  last (rows_at D df1) = Some fetched ->
  exists df w2,
    update_dfs w = (Ok df, w2) /\ csv w2 = Some (csv_text df)
    /\ rows_at D df = [fetched].
Proof.
  intros Hcsv Hread Hmax Hget _ _ Hlast.
  destruct (update_dfs_ok w w1 content df0 df1 latest Hcsv Hread Hmax Hget)
    as (w2 & Hrun & Hc & _).
  exists (merge_dfs df0 df1), w2. split; [exact Hrun|]. split; [exact Hc|].
  apply rows_at_merge_dfs. exact Hlast.
Qed.

Lemma update_prefers_fetched_rows_witness :
  exists df w2,
    @update_dfs Sample.library Sample.world_stale = (Ok df, w2)
    /\ csv w2 = Some (csv_text df)
    /\ rows_at (Sample.jan 4) df = [Sample.flat_row (Sample.jan 4) 9].
Proof.
  eapply (@update_prefers_fetched_rows Sample.library Sample.world_stale _ _
            [Sample.flat_row (Sample.jan 4) 1] Sample.rows_2021 (Sample.jan 4)
            (Sample.jan 4) (Sample.flat_row (Sample.jan 4) 1)).
  - reflexivity.
  - reflexivity.
  - reflexivity.
  - reflexivity.
  - left.
  - reflexivity.
  - reflexivity.
Defined.

(** C2, as stated, fails: the persisted table is in date order and the
    service lists 5 January before 4 January; [update_dfs] persists the
    rows in the order of the concatenation, 5 January first. *)
Lemma update_keeps_document_order :
  let df := [Sample.flat_row (Sample.jan 5) 8; Sample.flat_row (Sample.jan 4) 9] in
  @sorted_by_date Sample.library [Sample.flat_row (Sample.jan 4) 1]
  /\ csv Sample.world_reversed
     = Some (@csv_text Sample.library [Sample.flat_row (Sample.jan 4) 1])
  /\ fst (@update_dfs Sample.library Sample.world_reversed) = Ok df
  /\ csv (snd (@update_dfs Sample.library Sample.world_reversed))
     = Some (csv_text df)
  /\ index df = [Sample.jan 5; Sample.jan 4]
  /\ ~ sorted_by_date df.
Proof.
  intros df. split; [reflexivity|]. split; [reflexivity|]. split; [reflexivity|].
  split; [reflexivity|]. split; [reflexivity|]. unfold sorted_by_date. discriminate.
Qed.

(** C2, amended. [update_dfs] does not sort: it persists the concatenation
    of the persisted and the fetched rows with the earlier duplicates
    dropped.  That table is in non-decreasing date order when the persisted
    table and the fetched table each are, and every persisted row whose date
    was not fetched again is no later than every fetched row. *)
Theorem update_sorted_when_parts_sorted `{Library}
    (w w1 : world) (content : string) (df0 df1 : table) (latest : date) :
  csv w = Some content ->
  csv_table content = Ok df0 ->
  max_date (index df0) = Ok latest ->
  get_dfs (range (year latest) (today_year w + 1)) w = (Ok df1, w1) ->
  sorted_by_date df0 ->
  sorted_by_date df1 ->
  Forall (fun r0 => row_date r0 ∈ index df1
                    \/ Forall (fun r1 => date_leb (row_date r0) (row_date r1) = true) df1)
         df0 ->
  exists df w2,
    update_dfs w = (Ok df, w2) /\ csv w2 = Some (csv_text df)
    /\ df = filter (fun r => row_date r ∉ index df1) (drop_duplicates_last df0)
            ++ drop_duplicates_last df1
    /\ sorted_by_date df.
Proof.
  intros Hcsv Hread Hmax Hget Hs0 Hs1 Hcross.
  destruct (update_dfs_ok w w1 content df0 df1 latest Hcsv Hread Hmax Hget)
    as (w2 & Hrun & Hc & _).
  exists (merge_dfs df0 df1), w2. split; [exact Hrun|]. split; [exact Hc|].
  split; [apply drop_duplicates_last_app|].
  apply merge_dfs_sorted; assumption.
Qed.

Lemma update_sorted_when_parts_sorted_witness :
  exists df w2,
    @update_dfs Sample.library Sample.world_ordered = (Ok df, w2)
    /\ csv w2 = Some (csv_text df)
    /\ df = filter (fun r => row_date r ∉ index Sample.rows_2021)
              (drop_duplicates_last
                 [Sample.flat_row (mkdate 2020 12 31) 1;
                  Sample.flat_row (Sample.jan 4) 1])
            ++ drop_duplicates_last Sample.rows_2021
    /\ sorted_by_date df.
Proof.
  eapply (@update_sorted_when_parts_sorted Sample.library Sample.world_ordered _
            _ _ Sample.rows_2021 (Sample.jan 4)).
  - reflexivity.
  - reflexivity.
  - reflexivity.
  - reflexivity.
  - reflexivity.
  - reflexivity.
  - constructor; [right; repeat constructor|].
    constructor; [left; left|constructor].
Defined.




(** The second run of the sample does return the table again. *)
Example second_sample_run_returns_table :
  fst (@update_dfs Sample.library (snd (@update_dfs Sample.library Sample.world_stale)))
  = Ok Sample.rows_2021.
Proof. reflexivity. Qed.

(** * Further properties of the code *)

(** ** The names of the resources *)

Lemma format_int_inj (a b : Z) : format_int a = format_int b -> a = b.
Proof.
  unfold format_int. intros Heq.
  assert (Hparse : forall z, NilZero.int_of_string (NilZero.string_of_int (Z.to_int z))
                             = Some (Z.to_int z)).
  { intros z. apply NilZero.isi; destruct z as [|p|p]; simpl; try discriminate;
      intros [= Hnil]; exact (DecimalPos.Unsigned.to_uint_nonnil p Hnil). }
  pose proof (Hparse a) as Ha. rewrite Heq, Hparse in Ha.
  injection Ha as Ha. symmetry. exact (DecimalZ.to_int_inj _ _ Ha).
Qed.

Lemma length_append (s t : string) :
  String.length (s +:+ t) = (String.length s + String.length t)%nat.
Proof. induction s as [|c s IH]; simpl; [reflexivity|]. rewrite IH. reflexivity. Qed.

Lemma append_inj_r (s1 s2 t : string) : s1 +:+ t = s2 +:+ t -> s1 = s2.
Proof.
  revert s2. induction s1 as [|c s1 IH]; intros s2 Heq.
  - destruct s2 as [|c2 s2]; [reflexivity|]. exfalso.
    apply (f_equal String.length) in Heq.
    rewrite !length_append in Heq. simpl in Heq. rewrite ?length_append in Heq. lia.
  - destruct s2 as [|c2 s2].
    + exfalso. apply (f_equal String.length) in Heq.
      rewrite !length_append in Heq. simpl in Heq. rewrite ?length_append in Heq. lia.
    + simpl in Heq. injection Heq as -> Heq. f_equal. exact (IH _ Heq).
Qed.

Lemma append_inj_l (t s1 s2 : string) : t +:+ s1 = t +:+ s2 -> s1 = s2.
Proof.
  induction t as [|c t IH]; simpl; [auto|]. intros [= Heq]. exact (IH Heq).
Qed.

(** X2. Two years have the same URL, or the same cache path, only when they
    are the same year. *)
Theorem resource_names_injective (year year' : Z) :
  (get_url year = get_url year' <-> year = year')
  /\ (path_name year = path_name year' <-> year = year').
Proof.
  split; (split; [|intros ->; reflexivity]).
  - unfold get_url. intros Heq. apply append_inj_l in Heq.
    exact (format_int_inj _ _ Heq).
  - unfold path_name. intros Heq. do 2 apply append_inj_l in Heq.
    apply append_inj_r in Heq. exact (format_int_inj _ _ Heq).
Qed.

(** The names of a sample year, as the code formats them. *)
Example sample_names :
  path_name 2021 = "xml/2021.xml"
  /\ get_url 1990
     = "https://www.treasury.gov/resource-center/data-chart-center/interest-rates/pages/XmlView.aspx?data=yieldyear&year=1990".
Proof. split; reflexivity. Qed.

(** ** From a document to a frame *)

Section FrameOfFacts.
Context `{Library}.

Lemma yield_each_yielded {A B : Type} (f : A -> result B) (l : list A)
    (ys : list B) (e : option exn) (y : B) :
  yield_each f l = (ys, e) -> y ∈ ys -> exists a, a ∈ l /\ f a = Ok y.
Proof.
  revert ys e. induction l as [|a l IH]; intros ys e; simpl.
  - intros [= <- _] Hy. inversion Hy.
  - destruct (f a) as [b|e'] eqn:Hfa.
    + destruct (yield_each f l) as [ys' e''] eqn:Hrest. intros [= <- _] Hy.
      apply elem_of_cons in Hy as [->|Hy].
      * exists a. split; [left|exact Hfa].
      * destruct (IH ys' e'' eq_refl Hy) as (a' & Ha' & Hf).
        exists a'. split; [right|]; assumption.
    + intros [= <- _] Hy. inversion Hy.
Qed.

Lemma yield_each_exhausted {A B : Type} (f : A -> result B) (l : list A) (ys : list B) :
  yield_each f l = (ys, None) -> Forall2 (fun a b => f a = Ok b) l ys.
Proof.
  revert ys. induction l as [|a l IH]; intros ys; simpl.
  - intros [= <-]. constructor.
  - destruct (f a) as [b|e'] eqn:Hfa; [|discriminate].
    destruct (yield_each f l) as [ys' e''] eqn:Hrest. intros [= <- ->].
    constructor; [exact Hfa|]. apply IH. reflexivity.
Qed.


Lemma cur_dict_items_cases (datum : node) (keys : list string) :
  (cur_dict_items datum keys
   = Ok (map (fun key => (key, as_float (field_text key datum))) keys)
   /\ forall key, key ∈ keys -> is_Some (find key datum))
  \/ (cur_dict_items datum keys = Raise AttributeError
      /\ exists key, key ∈ keys /\ find key datum = None).
Proof.
  induction keys as [|key keys IH]; simpl.
  - left. split; [reflexivity|]. intros key Hkey. inversion Hkey.
  - unfold field_text at 1.
    destruct (find key datum) as [t|] eqn:Hfind; simpl.
    + destruct IH as [[-> Hall]|[-> (k & Hk & Hnone)]]; simpl.
      * left. split; [reflexivity|]. intros k Hk.
        apply elem_of_cons in Hk as [->|Hk]; [rewrite Hfind; eauto|auto].
      * right. split; [reflexivity|]. exists k. split; [right|]; assumption.
    + right. split; [reflexivity|]. exists key. split; [left|exact Hfind].
Qed.

(** What [cur_dict] makes of one entry. *)
Lemma cur_dict_cases (datum : node) :
  (exists t d,
     find "NEW_DATE" datum = Some t /\ strptime (text t) = Some d
     /\ (forall key, key ∈ BC_KEYS -> is_Some (find key datum))
     /\ cur_dict datum
        = Ok {| point_date := d;
                point_fields :=
                  list_to_map (map (fun key => (key, as_float (field_text key datum)))
                                   BC_KEYS) |})
  \/ (cur_dict datum = Raise AttributeError
      /\ ((exists key, key ∈ BC_KEYS /\ find key datum = None)
          \/ find "NEW_DATE" datum = None))
  \/ (cur_dict datum = Raise ValueError
      /\ exists t, find "NEW_DATE" datum = Some t /\ strptime (text t) = None).
Proof.
  unfold cur_dict.
  destruct (cur_dict_items_cases datum BC_KEYS) as [[-> Hall]|[-> Hmiss]].
  - cbn [rbind]. destruct (find "NEW_DATE" datum) as [t|] eqn:Ht; simpl.
    + destruct (strptime (text t)) as [d|] eqn:Hd.
      * left. exists t, d. auto.
      * right. right. split; [reflexivity|]. exists t. auto.
    + right. left. auto.
  - right. left. split; [reflexivity|]. left. exact Hmiss.
Qed.

Lemma lookup_items_None {V : Type} (f : string -> V) (keys : list string) (key : string) :
  key ∉ keys ->
  (list_to_map (map (fun k => (k, f k)) keys) : gmap string V) !! key = None.
Proof.
  induction keys as [|k keys IH]; intros Hnot; simpl; [apply lookup_empty|].
  rewrite lookup_insert_ne.
  - apply IH. intros Hin. apply Hnot. right. exact Hin.
  - intros ->. apply Hnot. left.
Qed.

Lemma cur_dict_keys (datum : node) (point : datapoint) (key : string) :
  cur_dict datum = Ok point ->
  (is_Some (point_fields point !! key) <-> key ∈ BC_KEYS).
Proof.
  intros Hrun.
  destruct (cur_dict_cases datum)
    as [(t & d & _ & _ & _ & Hok)|[[Herr _]|[Herr _]]]; try congruence.
  set (fs := list_to_map _) in Hok.
  rewrite Hok in Hrun. injection Hrun as <-. cbn [point_fields]. subst fs.
  destruct (decide (key ∈ BC_KEYS)) as [Hin|Hnot].
  - rewrite (lookup_items (fun k => as_float (field_text k datum))) by exact Hin.
    split; eauto.
  - rewrite (lookup_items_None (fun k => as_float (field_text k datum))) by exact Hnot.
    split; [intros [? ?]; discriminate|contradiction].
Qed.

Lemma cur_dict_row (datum : node) (point : datapoint) :
  cur_dict datum = Ok point ->
  row_values (point_row point)
  = map (fun key => Some (as_float (field_text key datum))) BC_KEYS.
Proof.
  intros Hrun.
  destruct (cur_dict_cases datum)
    as [(t & d & _ & _ & _ & Hok)|[[Herr _]|[Herr _]]]; try congruence.
  set (fs := list_to_map _) in Hok.
  rewrite Hok in Hrun. injection Hrun as <-. unfold point_row.
  cbn [row_values point_fields]. subst fs.
  apply map_ext_in. intros key Hkey.
  apply (lookup_items (fun k => as_float (field_text k datum))).
  apply list_elem_of_In. exact Hkey.
Qed.

(** Records of the primary parser always have the schema columns. *)
Lemma select_columns_parsed (data : list node) (points : list datapoint) :
  Forall2 (fun datum point => cur_dict datum = Ok point) data points ->
  points <> [] ->
  select_columns points = Ok (map point_row points).
Proof.
  intros Hall Hne. destruct Hall as [|datum point data points Hp Hrest]; [congruence|].
  unfold select_columns.
  assert (Hcols : forallb (has_column (point :: points)) BC_KEYS = true).
  { apply forallb_forall. intros key Hkey. apply list_elem_of_In in Hkey.
    unfold has_column. simpl. apply orb_true_iff. left.
    apply bool_decide_eq_true_2. apply (cur_dict_keys datum point key Hp). exact Hkey. }
  rewrite Hcols. reflexivity.
Qed.

Lemma parsed_rows (data : list node) (points : list datapoint) :
  Forall2 (fun datum point => cur_dict datum = Ok point) data points ->
  Forall2 (fun datum r =>
       (exists t, find "NEW_DATE" datum = Some t
                  /\ strptime (text t) = Some (row_date r))
       /\ row_values r
          = map (fun key => Some (as_float (field_text key datum))) BC_KEYS)
     data (map point_row points).
Proof.
  induction 1 as [|datum point ds ps Hp _ IH]; [constructor|].
  simpl. constructor; [|exact IH]. split.
  - destruct (cur_dict_cases datum)
      as [(t & d & Ht & Hd & _ & Hok)|[[Herr _]|[Herr _]]]; try congruence.
    rewrite Hok in Hp. injection Hp as <-. exists t. auto.
  - exact (cur_dict_row datum point Hp).
Qed.

End FrameOfFacts.

(** X3. When a document is turned into a frame, the frame has one row per
    [content] entry, in document order and at least one; each row is indexed
    by the day of the entry's timestamp and holds, for the twelve yield
    fields in the order of [BC_KEYS], what [as_float] returns for the text
    of the field's element. *)
Theorem frame_rows_follow_entries `{Library} (xml_content : string) (df : table) :
  frame_of (yield_datapoints_from_string xml_content) = Ok df ->
  let data := find_all "content" (BeautifulSoup xml_content) in
  data <> []
  /\ Forall2 (fun datum r =>
       (exists t, find "NEW_DATE" datum = Some t
                  /\ strptime (text t) = Some (row_date r))
       /\ row_values r
          = map (fun key => Some (as_float (field_text key datum))) BC_KEYS)
     data df.
Proof.
  intros Hframe data. unfold frame_of, yield_datapoints_from_string in Hframe.
  fold data in Hframe.
  destruct (yield_each cur_dict data) as [points [e|]] eqn:Hgen; [discriminate Hframe|].
  cbn [DataFrame rbind] in Hframe.
  pose proof (yield_each_exhausted _ _ _ Hgen) as Hall.
  destruct points as [|p points]; [discriminate Hframe|].
  rewrite (select_columns_parsed data (p :: points) Hall) in Hframe by congruence.
  injection Hframe as <-. split.
  - intros Hnil. rewrite Hnil in Hall. inversion Hall.
  - exact (parsed_rows data (p :: points) Hall).
Qed.

Lemma frame_rows_follow_entries_witness :
  let data := find_all "content" (Sample.soup (Sample.render Sample.doc_2021)) in
  data <> []
  /\ Forall2 (fun datum r =>
       (exists t, find "NEW_DATE" datum = Some t
                  /\ Sample.timestamp (text t) = Some (row_date r))
       /\ row_values r
          = map (fun key => Some (@as_float Sample.library (field_text key datum)))
                BC_KEYS)
     data Sample.rows_2021.
Proof.
  apply (@frame_rows_follow_entries Sample.library (Sample.render Sample.doc_2021)).
  reflexivity.
Defined.



(** X5. Every dictionary the primary parser yields, also one yielded before
    a later entry raises, has a value for each of the twelve yield keys and
    for no other key. *)
Theorem yielded_dict_has_schema_keys `{Library}
    (xml_content : string) (point : datapoint) (key : string) :
  point ∈ fst (yield_datapoints_from_string xml_content) ->
  (is_Some (point_fields point !! key) <-> key ∈ BC_KEYS).
Proof.
  unfold yield_datapoints_from_string. intros Hin.
  destruct (yield_each cur_dict (find_all "content" (BeautifulSoup xml_content)))
    as [points e] eqn:Hgen.
  destruct (yield_each_yielded _ _ _ _ _ Hgen Hin) as (datum & _ & Hp).
  exact (cur_dict_keys datum point key Hp).
Qed.

Lemma yielded_dict_has_schema_keys_witness :
  let point :=
    @mkpoint Sample.library (Sample.jan 4)
      (list_to_map (map (fun key => (key, PyFloat 9%Z)) BC_KEYS)) in
  (is_Some (point_fields point !! "BC_10YEAR") <-> "BC_10YEAR" ∈ BC_KEYS)
  /\ (is_Some (point_fields point !! "NEW_DATE") <-> "NEW_DATE" ∈ BC_KEYS).
Proof.
  intros point.
  assert (Hin : point ∈ fst (@yield_datapoints_from_string Sample.library
                               (Sample.render Sample.doc_2021))).
  { change (point ∈ point :: tail (fst (@yield_datapoints_from_string Sample.library
                                          (Sample.render Sample.doc_2021)))).
    left. }
  split.
  - exact (@yielded_dict_has_schema_keys Sample.library _ point "BC_10YEAR" Hin).
  - exact (@yielded_dict_has_schema_keys Sample.library _ point "NEW_DATE" Hin).
Defined.

(** ** Requests and cache files along the pipeline *)

Section RequestFacts.
Context `{Library}.

Lemma stale_fetch_condition (w : world) (year : Z) :
  stale w year = true <-> fetch_condition year false w.
Proof.
  unfold stale, fetch_condition. rewrite orb_true_iff, Z.eqb_eq, bool_decide_eq_true.
  split; [tauto|]. intros [Hf|Hcond]; [discriminate Hf|exact Hcond].
Qed.

(** One call of [get_df], whatever it returns. *)
Lemma get_df_step (year : Z) (w w1 : world) (r : result table) :
  get_df year w = (r, w1) ->
  today_year w1 = today_year w
  /\ csv w1 = csv w
  /\ requests w1 = requests w ++ (if stale w year then [year] else [])
  /\ (forall z, z <> year -> xml_files w1 !! z = xml_files w !! z)
  /\ (forall z, is_Some (xml_files w !! z) -> is_Some (xml_files w1 !! z))
  /\ (forall df, r = Ok df -> is_Some (xml_files w1 !! year)).
Proof.
  rewrite get_df_unfold.
  destruct (get_datapoints_run year false w)
    as (r0 & w0 & -> & Ht & _ & Hc & Hcases). cbn [fst snd].
  intros [= Hr <-]. split; [exact Ht|]. split; [exact Hc|].
  destruct Hcases as [(Hcond & Hreq & Hfetch)|(Hcond & Hreq & Hfiles & c & Hfile & Hr0)].
  - apply stale_fetch_condition in Hcond. rewrite Hcond.
    split; [exact Hreq|].
    destruct Hfetch as [(_ & Hr0 & Hfiles)|(_ & Hr0 & Hfiles)]; rewrite Hfiles.
    + split; [auto|]. split; [auto|]. intros df Hdf. subst. discriminate Hdf.
    + split; [intros z Hz; apply lookup_insert_ne; congruence|].
      split; [|intros _ _; rewrite lookup_insert_eq; eauto].
      intros z Hz. destruct (decide (year = z)) as [->|Hne].
      * rewrite lookup_insert_eq. eauto.
      * rewrite lookup_insert_ne by exact Hne. exact Hz.
  - assert (Hstale : stale w year = false).
    { destruct (stale w year) eqn:E; [|reflexivity].
      apply stale_fetch_condition in E. contradiction. }
    rewrite Hstale, app_nil_r, Hfiles.
    split; [exact Hreq|]. split; [auto|]. split; [auto|]. intros _ _. eauto.
Qed.

Lemma stale_after_other_year (w w1 : world) (z : Z) :
  today_year w1 = today_year w ->
  xml_files w1 !! z = xml_files w !! z ->
  stale w1 z = stale w z.
Proof. unfold stale. intros -> ->. reflexivity. Qed.

(** A successful pass over distinct years requests exactly the stale ones,
    in order, and leaves a cache file for each year. *)
Lemma get_df_each_requests (years : list Z) (w w' : world) (dfs : list table) :
  get_df_each years w = (Ok dfs, w') ->
  NoDup years ->
  today_year w' = today_year w
  /\ requests w' = requests w ++ List.filter (stale w) years
  /\ (forall y, y ∈ years -> is_Some (xml_files w' !! y))
  /\ (forall z, z ∉ years -> xml_files w' !! z = xml_files w !! z).
Proof.
  revert w w' dfs. induction years as [|y years IH]; intros w w' dfs Hrun Hnd.
  - simpl in Hrun. injection Hrun as _ <-.
    split; [reflexivity|]. split; [simpl; rewrite app_nil_r; reflexivity|].
    split; [intros y Hy; inversion Hy|reflexivity].
  - simpl in Hrun.
    apply bind_inv in Hrun as [(df & w1 & Hy & Hrest)|(e & _ & He)]; [|discriminate He].
    apply bind_inv in Hrest as [(dfs' & w2 & Hys & Hret)|(e & _ & He)]; [|discriminate He].
    injection Hret as _ <-.
    apply NoDup_cons in Hnd as [Hnotin Hnd].
    destruct (get_df_step _ _ _ _ Hy) as (Ht1 & _ & Hreq1 & Hother & _ & Hself).
    destruct (IH _ _ _ Hys Hnd) as (Ht2 & Hreq2 & Hin2 & Hout2).
    assert (Hfilter : List.filter (stale w1) years = List.filter (stale w) years).
    { apply filter_ext_in. intros z Hz. apply list_elem_of_In in Hz.
      apply stale_after_other_year; [exact Ht1|].
      apply Hother. intros ->. contradiction. }
    split; [congruence|]. split; [|split].
    + rewrite Hreq2, Hreq1, Hfilter, <- app_assoc. simpl.
      destruct (stale w y); reflexivity.
    + intros z Hz. apply elem_of_cons in Hz as [->|Hz]; [|auto].
      rewrite (Hout2 y Hnotin). eauto.
    + intros z Hz. rewrite Hout2, Hother; [reflexivity| |];
        intros Hin; apply Hz; [subst; left|right; exact Hin].
Qed.

(** Any pass, also a failing one: requests are appended, files are kept. *)
Lemma get_df_each_grows (years : list Z) (w w' : world) (r : result (list table)) :
  get_df_each years w = (r, w') ->
  (exists l, requests w' = requests w ++ l /\ forall y, y ∈ l -> y ∈ years)
  /\ (forall z, is_Some (xml_files w !! z) -> is_Some (xml_files w' !! z)).
Proof.
  revert w w' r. induction years as [|y years IH]; intros w w' r Hrun.
  - simpl in Hrun. injection Hrun as _ <-. split; [|auto].
    exists []. split; [rewrite app_nil_r; reflexivity|]. intros y Hy. inversion Hy.
  - simpl in Hrun.
    assert (Hhead : forall w1 r1, get_df y w = (r1, w1) ->
              (exists l, requests w1 = requests w ++ l /\ forall z, z ∈ l -> z ∈ y :: years)
              /\ (forall z, is_Some (xml_files w !! z) -> is_Some (xml_files w1 !! z))).
    { intros w1 r1 Hy. destruct (get_df_step _ _ _ _ Hy) as (_ & _ & Hreq & _ & Hgrow & _).
      split; [|exact Hgrow]. eexists. split; [exact Hreq|].
      intros z Hz. destruct (stale w y); [|inversion Hz].
      apply list_elem_of_singleton in Hz as ->. left. }
    apply bind_inv in Hrun as [(df & w1 & Hy & Hrest)|(e & Hy & _)]; [|eauto].
    destruct (Hhead _ _ Hy) as [(l1 & Hreq1 & Hl1) Hgrow1].
    assert (Htail : exists r2, get_df_each years w1 = (r2, w')).
    { apply bind_inv in Hrest as [(dfs' & w2 & Hys & Hret)|(e & Hys & _)]; [|eauto].
      injection Hret as _ <-. eauto. }
    destruct Htail as [r2 Hys].
    destruct (IH _ _ _ Hys) as [(l2 & Hreq2 & Hl2) Hgrow2].
    split; [|auto].
    exists (l1 ++ l2). split; [rewrite Hreq2, Hreq1, app_assoc; reflexivity|].
    intros z Hz. apply elem_of_app in Hz as [Hz|Hz]; [auto|right; auto].
Qed.

Lemma get_dfs_requests (years : list Z) (w w' : world) (r : result table) :
  get_dfs years w = (r, w') ->
  exists r', get_df_each years w = (r', w').
Proof.
  unfold get_dfs. intros Hrun.
  apply bind_inv in Hrun as [(dfs & w1 & Hys & Hcat)|(e & Hys & _)]; [|eauto].
  unfold lift in Hcat. injection Hcat as _ <-. eauto.
Qed.

End RequestFacts.

(** X6. Once a past year has been read, reading it again sends no request
    and writes no file: it returns the parse of the year's cache file as a
    text-mode read gives it.  That is the generator of the first read when
    the parser reads the served body alike with either line ending. *)
Theorem second_read_uses_cache `{Library}
    (year : Z) (w w1 : world) (g : gen datapoint) :
  get_datapoints year false w = (Ok g, w1) ->
  year <> today_year w ->
  exists c w2,
    xml_files w1 !! year = Some c
    /\ get_datapoints year false w1
       = (Ok (yield_datapoints_from_string (universal_newlines c)), w2)
    /\ requests w2 = requests w1 /\ xml_files w2 = xml_files w1
    /\ (BeautifulSoup (universal_newlines (web w year)) = BeautifulSoup (web w year) ->
        yield_datapoints_from_string (universal_newlines c) = g).
Proof.
  intros Hrun Hpast.
  destruct (get_datapoints_run year false w)
    as (r & w' & Heq & Ht & _ & _ & Hcases).
  rewrite Hrun in Heq. injection Heq as <- <-.
  assert (Hfile : exists c, xml_files w1 !! year = Some c
            /\ (BeautifulSoup (universal_newlines (web w year))
                = BeautifulSoup (web w year) ->
                yield_datapoints_from_string (universal_newlines c) = g)).
  { destruct Hcases as [(_ & _ & [(_ & Hr & _)|(_ & Hr & ->)])|(_ & _ & -> & c & Hc & Hr)].
    - discriminate Hr.
    - exists (web w year). split; [apply lookup_insert_eq|].
      intros Heol. injection Hr as ->.
      unfold yield_datapoints_from_string. rewrite Heol. reflexivity.
    - exists c. split; [exact Hc|]. intros _. injection Hr as ->. reflexivity. }
  destruct Hfile as (c & Hc & Hsame).
  destruct (get_datapoints_run year false w1)
    as (r2 & w2 & Heq2 & _ & _ & _ & Hcases2).
  exists c, w2. split; [exact Hc|].
  destruct Hcases2 as [([Hf|[Hy|Hnone]] & _)|(_ & Hreq & Hfiles & c2 & Hc2 & ->)].
  - discriminate Hf.
  - congruence.
  - congruence.
  - rewrite Hc in Hc2. injection Hc2 as <-. auto.
Qed.

Lemma second_read_uses_cache_witness :
  let w1 := snd (@get_datapoints Sample.library 2021 false Scenario.world_2022) in
  exists c w2,
    xml_files w1 !! 2021%Z = Some c
    /\ @get_datapoints Sample.library 2021 false w1
       = (Ok (@yield_datapoints_from_string Sample.library (universal_newlines c)), w2)
    /\ requests w2 = requests w1 /\ xml_files w2 = xml_files w1
    /\ (Sample.soup (universal_newlines (web Scenario.world_2022 2021))
        = Sample.soup (web Scenario.world_2022 2021) ->
        @yield_datapoints_from_string Sample.library (universal_newlines c)
        = @yield_datapoints_from_string Sample.library (Sample.render Sample.doc_2021)).
Proof.
  intros w1.
  apply (@second_read_uses_cache Sample.library 2021 Scenario.world_2022 w1
           (@yield_datapoints_from_string Sample.library
              (Sample.render Sample.doc_2021))).
  - reflexivity.
  - discriminate.
Defined.

Lemma get_df_each_raise `{Library} (years1 years2 : list Z) (year : Z)
    (w w1 w2 : world) (dfs : list table) (e : exn) :
  get_df_each years1 w = (Ok dfs, w1) ->
  get_df year w1 = (Raise e, w2) ->
  get_df_each (years1 ++ year :: years2) w = (Raise e, w2).
Proof.
  revert w dfs. induction years1 as [|y years1 IH]; intros w dfs Hrun Hfail; simpl.
  - simpl in Hrun. injection Hrun as _ ->. exact (bind_raise _ _ _ _ _ Hfail).
  - simpl in Hrun.
    apply bind_inv in Hrun as [(df & wa & Hy & Hrest)|(e' & _ & He)]; [|discriminate He].
    apply bind_inv in Hrest as [(dfs' & wb & Hys & Hret)|(e' & _ & He)]; [|discriminate He].
    injection Hret as _ ->.
    rewrite (bind_ok _ _ _ _ _ Hy).
    exact (bind_raise _ _ _ _ _ (IH _ _ Hys Hfail)).
Qed.

(** X7. [get_dfs] stops at the first year that fails: it raises that year's
    exception and leaves the world as that year's [get_df] left it, so no
    later year is requested or cached and no partial table is returned. *)
Theorem get_dfs_stops_at_first_failure `{Library}
    (years1 years2 : list Z) (year : Z) (w w1 w2 : world)
    (dfs : list table) (e : exn) :
  get_df_each years1 w = (Ok dfs, w1) ->
  get_df year w1 = (Raise e, w2) ->
  get_dfs (years1 ++ year :: years2) w = (Raise e, w2).
Proof.
  intros Hrun Hfail. unfold get_dfs.
  exact (bind_raise _ _ _ _ _ (get_df_each_raise _ years2 _ _ _ _ _ _ Hrun Hfail)).
Qed.

Lemma get_dfs_stops_at_first_failure_witness :
  let w := Sample.world_2021 (Sample.render Sample.doc_2021) [] in
  @get_dfs Sample.library ([] ++ 2020%Z :: [2021%Z]) w
  = (Raise ValueError, snd (@get_df Sample.library 2020 w)).
Proof.
  intros w.
  apply (@get_dfs_stops_at_first_failure Sample.library [] [2021%Z] 2020 w w
           (snd (@get_df Sample.library 2020 w)) [] ValueError).
  - reflexivity.
  - reflexivity.
Defined.

(** In that sample run the only request is the one for 2020. *)
Example failed_year_ends_the_run :
  requests (snd (@get_dfs Sample.library [2020%Z; 2021%Z]
                   (Sample.world_2021 (Sample.render Sample.doc_2021) [])))
  = [2020%Z].
Proof. reflexivity. Qed.

(** X8. A successful [get_dfs] over distinct years sends a request for
    exactly the years that are the current year or have no cache file, in
    the order of the list; afterwards every year of the list has a cache
    file and the files of other years are as before. *)
Theorem get_dfs_requests_stale_years `{Library}
    (years : list Z) (w w' : world) (df : table) :
  get_dfs years w = (Ok df, w') ->
  NoDup years ->
  requests w' = requests w ++ List.filter (stale w) years
  /\ (forall y, y ∈ years -> is_Some (xml_files w' !! y))
  /\ (forall z, z ∉ years -> xml_files w' !! z = xml_files w !! z).
Proof.
  intros Hrun Hnd. apply get_dfs_inv in Hrun as (dfs & Heach & _ & _).
  destruct (get_df_each_requests _ _ _ _ Heach Hnd) as (_ & Hreq & Hin & Hout).
  auto.
Qed.

Lemma get_dfs_requests_stale_years_witness :
  let w := Scenario.world_cached [] in
  let w' := snd (@get_dfs Sample.library (range 2020 2022) w) in
  requests w' = requests w ++ List.filter (stale w) (range 2020 2022)
  /\ (forall y, y ∈ range 2020 2022 -> is_Some (xml_files w' !! y))
  /\ (forall z, z ∉ range 2020 2022 -> xml_files w' !! z = xml_files w !! z).
Proof.
  intros w w'.
  apply (@get_dfs_requests_stale_years Sample.library (range 2020 2022) w w'
           (Scenario.rows_reversed ++ Sample.rows_2021)).
  - reflexivity.
  - apply NoDup_seqZ.
Defined.

(** The cached 2020 is not requested; the current year is. *)
Example cached_year_not_requested :
  requests (snd (@get_dfs Sample.library (range 2020 2022) (Scenario.world_cached [])))
  = [2021%Z].
Proof. reflexivity. Qed.

(** X9. Whatever [update_dfs] returns, it only appends to the requests, it
    removes no cache file, and it leaves the content of every cached file
    of a past year as it was. *)
Theorem update_keeps_cache_files `{Library} (w : world) :
  let w' := snd (update_dfs w) in
  (exists l, requests w' = requests w ++ l)
  /\ (forall y, is_Some (xml_files w !! y) -> is_Some (xml_files w' !! y))
  /\ (forall y c, y <> today_year w -> xml_files w !! y = Some c ->
      xml_files w' !! y = Some c).
Proof.
  intros w'. subst w'.
  assert (Hsame : (exists l, requests w = requests w ++ l)
                  /\ (forall y, is_Some (xml_files w !! y) -> is_Some (xml_files w !! y))
                  /\ (forall y c, y <> today_year w -> xml_files w !! y = Some c ->
                      xml_files w !! y = Some c)).
  { split; [exists []; rewrite app_nil_r; reflexivity|]. auto. }
  assert (Hget : forall years r w1, get_dfs years w = (r, w1) ->
            (exists l, requests w1 = requests w ++ l)
            /\ (forall y, is_Some (xml_files w !! y) -> is_Some (xml_files w1 !! y))
            /\ (forall y c, y <> today_year w -> xml_files w !! y = Some c ->
                xml_files w1 !! y = Some c)).
  { intros years r w1 Hrun.
    pose proof (get_dfs_kept _ _ _ _ Hrun) as [(_ & _ & Hkept) _].
    apply get_dfs_requests in Hrun as [r' Heach].
    destruct (get_df_each_grows _ _ _ _ Heach) as [(l & Hl & _) Hgrow].
    split; [eauto|]. split; [exact Hgrow|exact Hkept]. }
  destruct (update_dfs_cases w)
    as [[_ ->]|[(c & e & _ & _ & ->)|[(c & _ & _ & ->)
       |(content & df0 & latest & _ & _ & _ &
          [(e & w1 & Hrun & ->)|(df1 & w1 & w2 & Hrun & -> & _ & Hreq & Hfiles & _)])]]];
    cbn [snd]; try exact Hsame.
  - exact (Hget _ _ _ Hrun).
  - rewrite Hreq, Hfiles. exact (Hget _ _ _ Hrun).
Qed.

(** X10. An [update_dfs] that raises has not written the persisted file. *)
Theorem failed_update_keeps_table `{Library} (w : world) (e : exn) :
  fst (update_dfs w) = Raise e -> csv (snd (update_dfs w)) = csv w.
Proof.
  destruct (update_dfs_cases w)
    as [[_ ->]|[(c & e0 & _ & _ & ->)|[(c & _ & _ & ->)
       |(content & df0 & latest & _ & _ & _ &
          [(e' & w1 & Hrun & ->)|(df1 & w1 & w2 & _ & -> & _)])]]];
    cbn [fst snd]; try reflexivity.
  - intros _. exact (proj2 (get_dfs_kept _ _ _ _ Hrun)).
  - discriminate.
Qed.

Lemma failed_update_keeps_table_witness :
  let w := Sample.world_2021 (Sample.render Sample.doc_short_entry)
             [Sample.flat_row (Sample.jan 4) 1] in
  csv (snd (@update_dfs Sample.library w)) = csv w.
Proof.
  intros w. apply (@failed_update_keeps_table Sample.library w AttributeError).
  reflexivity.
Defined.

(** X11. Without a usable baseline [update_dfs] raises at once, before any
    request and without touching a file: [FileNotFoundError] when there is
    no persisted file, the reader's exception when the file does not parse,
    [ValueError] when the table read is empty and when its latest date lies
    in a year after the current one. *)
Theorem update_refuses_unusable_baseline `{Library} (w : world) :
  (csv w = None -> update_dfs w = (Raise FileNotFoundError, w))
  /\ (forall content e,
        csv w = Some content -> csv_table content = Raise e ->
        update_dfs w = (Raise e, w))
  /\ (forall content,
        csv w = Some content -> csv_table content = Ok [] ->
        update_dfs w = (Raise ValueError, w))
  /\ (forall content df0 latest,
        csv w = Some content -> csv_table content = Ok df0 ->
        max_date (index df0) = Ok latest ->
        (today_year w < year latest)%Z ->
        update_dfs w = (Raise ValueError, w)).
Proof.
  split; [|split; [|split]].
  - intros Hcsv. unfold update_dfs, bind at 1, read_csv at 1. rewrite Hcsv. reflexivity.
  - intros content e Hcsv Hread. unfold update_dfs, bind at 1, read_csv at 1.
    rewrite Hcsv, Hread. reflexivity.
  - intros content Hcsv Hread. unfold update_dfs, bind at 1, read_csv at 1.
    rewrite Hcsv, Hread. reflexivity.
  - intros content df0 latest Hcsv Hread Hmax Hfuture.
    apply (update_dfs_raise w w content df0 latest ValueError Hcsv Hread Hmax).
    unfold range. rewrite seqZ_nil by lia. reflexivity.
Qed.

Lemma update_refuses_unusable_baseline_witness :
  let w := Sample.world_2021 (Sample.render Sample.doc_2021)
             [Sample.flat_row (mkdate 2022 1 3) 1] in
  @update_dfs Sample.library w = (Raise ValueError, w).
Proof.
  intros w.
  apply (proj2 (proj2 (proj2 (@update_refuses_unusable_baseline Sample.library w)))
           (@csv_text Sample.library [Sample.flat_row (mkdate 2022 1 3) 1])
           [Sample.flat_row (mkdate 2022 1 3) 1] (mkdate 2022 1 3)).
  - reflexivity.
  - reflexivity.
  - reflexivity.
  - reflexivity.
Defined.

(** A persisted file that is not a table of the schema ends the update with
    the reader's exception. *)
Example malformed_file_ends_the_update :
  let w := {| today_year := 2021; web := fun _ => "Error"; requests := [];
              xml_dir := false; xml_files := ∅; csv := Some "Date,BC_1MONTH" |} in
  @update_dfs Sample.library w = (Raise ValueError, w).
Proof. reflexivity. Qed.

(** X12. The table that [update_dfs] returns has no two rows with the same
    date, and every date of the persisted table is still in it, on exactly
    one row. *)
Theorem update_result_dates `{Library}
    (w w' : world) (content : string) (df df0 : table) :
  update_dfs w = (Ok df, w') ->
  csv w = Some content ->
  csv_table content = Ok df0 ->
  NoDup (index df)
  /\ forall D, D ∈ index df0 -> exists r, rows_at D df = [r].
Proof.
  intros Hrun Hcsv Hread.
  destruct (update_dfs_inv w w' df Hrun)
    as (content' & df0' & latest & df1 & w1 & Hcsv' & Hread' & _ & _ & -> & _ & _).
  assert (df0' = df0) as -> by congruence.
  unfold merge_dfs. split; [apply NoDup_index_drop_duplicates_last|].
  intros D HD. rewrite rows_at_drop_duplicates_last.
  assert (Hne : rows_at D (df0 ++ df1) <> []).
  { apply rows_at_nonempty. rewrite index_app. apply elem_of_app. left. exact HD. }
  destruct (last (rows_at D (df0 ++ df1))) as [r|] eqn:Hlast; [eauto|].
  apply last_None in Hlast. contradiction.
Qed.

Lemma update_result_dates_witness :
  NoDup (index Sample.rows_2021)
  /\ forall D, D ∈ index [Sample.flat_row (Sample.jan 4) 1] ->
       exists r, rows_at D Sample.rows_2021 = [r].
Proof.
  apply (@update_result_dates Sample.library Sample.world_stale
           (snd (@update_dfs Sample.library Sample.world_stale))
           (@csv_text Sample.library [Sample.flat_row (Sample.jan 4) 1])).
  - reflexivity.
  - reflexivity.
  - reflexivity.
Defined.

(** X13. A persisted date that was not fetched again keeps its persisted
    row (the last one, if the persisted table listed the date twice). *)
Theorem update_keeps_unfetched_rows `{Library}
    (w w1 : world) (content : string) (df0 df1 : table) (latest D : date)
    (persisted : row) :
  csv w = Some content ->
  csv_table content = Ok df0 ->
  max_date (index df0) = Ok latest ->
  get_dfs (range (year latest) (today_year w + 1)) w = (Ok df1, w1) ->
  D ∉ index df1 ->
  last (rows_at D df0) = Some persisted ->
  exists df w2,
    update_dfs w = (Ok df, w2) /\ csv w2 = Some (csv_text df)
    /\ rows_at D df = [persisted].
Proof.
  intros Hcsv Hread Hmax Hget Hnot Hlast.
  destruct (update_dfs_ok w w1 content df0 df1 latest Hcsv Hread Hmax Hget)
    as (w2 & Hrun & Hc & _).
  exists (merge_dfs df0 df1), w2. split; [exact Hrun|]. split; [exact Hc|].
  unfold merge_dfs. rewrite rows_at_drop_duplicates_last.
  unfold rows_at in *. rewrite filter_app, last_app.
  fold (rows_at D df1). rewrite (rows_at_nil D df1 Hnot). simpl.
  rewrite Hlast. reflexivity.
Qed.

Lemma update_keeps_unfetched_rows_witness :
  exists df w2,
    @update_dfs Sample.library Sample.world_ordered = (Ok df, w2)
    /\ csv w2 = Some (csv_text df)
    /\ rows_at Scenario.dec31 df = [Sample.flat_row Scenario.dec31 1].
Proof.
  eapply (@update_keeps_unfetched_rows Sample.library Sample.world_ordered _
            _ _ Sample.rows_2021 (Sample.jan 4) Scenario.dec31).
  - reflexivity.
  - reflexivity.
  - reflexivity.
  - reflexivity.
  - intros Hin. repeat (apply elem_of_cons in Hin as [Hin|Hin]; [discriminate Hin|]).
    inversion Hin.
  - reflexivity.
Defined.

(** X14. A successful [update_dfs] has requested the current year, and that
    request is the last one it sent. *)
Theorem update_requests_current_year_last `{Library} (w w' : world) (df : table) :
  update_dfs w = (Ok df, w') ->
  exists l, requests w' = requests w ++ l ++ [today_year w].
Proof.
  intros Hrun.
  destruct (update_dfs_cases w)
    as [[_ Heq]|[(c & e & _ & _ & Heq)|[(c & _ & _ & Heq)
       |(content & df0 & latest & _ & _ & _ &
          [(e & w1 & _ & Heq)|(df1 & w1 & w2 & Hget & Heq & _ & Hreq & _ & _)])]]];
    rewrite Heq in Hrun; try discriminate Hrun.
  injection Hrun as _ <-.
  apply get_dfs_inv in Hget as (dfs & Heach & Hne & _).
  pose proof (get_df_each_length _ _ _ _ Heach) as Hlen.
  unfold range in Heach, Hlen. rewrite length_seqZ in Hlen.
  assert (Hle : (year latest <= today_year w)%Z).
  { destruct dfs; [congruence|]. simpl in Hlen. lia. }
  replace (today_year w + 1 - year latest)%Z
    with ((today_year w - year latest) + 1)%Z in Heach by lia.
  rewrite seqZ_app in Heach by lia.
  replace (year latest + (today_year w - year latest))%Z with (today_year w) in Heach by lia.
  apply get_df_each_app in Heach as (dfs1 & dfs2 & wm & Hfirst & Hlast & _).
  destruct (get_df_each_grows _ _ _ _ Hfirst) as [(l & Hl & _) _].
  pose proof (get_df_each_kept _ _ _ _ Hfirst) as [(Htm & _ & _) _].
  change (seqZ (today_year w) 1) with [today_year w] in Hlast. simpl in Hlast.
  apply bind_inv in Hlast as [(dfy & wy & Hy & Hret)|(e & _ & He)]; [|discriminate He].
  unfold bind, ret in Hret. cbn in Hret. injection Hret as _ <-.
  destruct (get_df_step _ _ _ _ Hy) as (_ & _ & Hreqy & _).
  assert (Hstale : stale wm (today_year w) = true).
  { unfold stale. rewrite Htm, Z.eqb_refl. reflexivity. }
  rewrite Hstale in Hreqy.
  exists l. rewrite Hreq, Hreqy, Hl, <- app_assoc. reflexivity.
Qed.

Lemma update_requests_current_year_last_witness :
  exists l,
    requests (snd (@update_dfs Sample.library Sample.world_stale))
    = requests Sample.world_stale ++ l ++ [today_year Sample.world_stale].
Proof.
  apply (@update_requests_current_year_last Sample.library Sample.world_stale
           (snd (@update_dfs Sample.library Sample.world_stale)) Sample.rows_2021).
  reflexivity.
Defined.

(** X15. [get_dfs_from_scratch] raises [ValueError] at once when the clock
    reads a year before 1990; when it succeeds it has requested exactly the
    years from 1990 to the current one that are current or not cached, in
    order, and it has not written the persisted file. *)
Theorem from_scratch_requests `{Library} (w : world) :
  ((today_year w < 1990)%Z -> get_dfs_from_scratch w = (Raise ValueError, w))
  /\ (forall df w', get_dfs_from_scratch w = (Ok df, w') ->
        requests w'
        = requests w ++ List.filter (stale w) (range 1990 (today_year w + 1))
        /\ (forall y, (1990 <= y <= today_year w)%Z -> is_Some (xml_files w' !! y))
        /\ csv w' = csv w).
Proof.
  unfold get_dfs_from_scratch. split.
  - intros Hearly. unfold bind at 1. unfold today at 1.
    unfold range. rewrite seqZ_nil by lia. reflexivity.
  - intros df w' Hrun.
    apply bind_inv in Hrun as [(t & w0 & Ht & Hrun)|(e & _ & He)]; [|discriminate He].
    unfold today in Ht. injection Ht as <- <-.
    apply bind_inv in Hrun as [(dfs & w1 & Heach & Hcat)|(e & _ & He)]; [|discriminate He].
    unfold lift in Hcat. injection Hcat as _ <-.
    destruct (get_df_each_requests _ _ _ _ Heach (NoDup_seqZ _ _))
      as (_ & Hreq & Hin & _).
    split; [exact Hreq|]. split; [|exact (proj2 (get_df_each_kept _ _ _ _ Heach))].
    intros y Hy. apply Hin. unfold range. apply elem_of_seqZ. lia.
Qed.

Lemma from_scratch_requests_witness :
  let w' := snd (@get_dfs_from_scratch Sample.library Scenario.world_1990) in
  requests w'
  = requests Scenario.world_1990
    ++ List.filter (stale Scenario.world_1990)
         (range 1990 (today_year Scenario.world_1990 + 1))
  /\ (forall y, (1990 <= y <= today_year Scenario.world_1990)%Z ->
      is_Some (xml_files w' !! y))
  /\ csv w' = csv Scenario.world_1990.
Proof.
  intros w'.
  apply (proj2 (@from_scratch_requests Sample.library Scenario.world_1990)
           Sample.rows_2021 w').
  reflexivity.
Defined.
